(** * wayes: a thin layer over [net/http.ServeMux]

    Shallow embedding of the Go package [github.com/eliofery/wayes]
    (files [wayes.go] and [ctx.go]) and proofs of its dispatch, grouping and
    request-context properties.

    Conventions of the embedding:
    - a Go [int] status code is a [Z];
    - a Go [string] is a [string]; [[]byte(message)] is the same string;
    - a Go [error] that may be [nil] is an [option error];
    - a method with a pointer receiver that mutates the receiver takes the
      receiver's state and returns the new state (explicit state passing);
    - routers and muxes are heap objects reached through pointers, so they
      live in a [Store] and are named by locations;
    - what the package takes from the Go standard library without
      implementing it (header-key canonicalisation, the JSON decoder, the
      pattern language of [ServeMux]) is the class [Collaborators]: every
      property below holds for every instance of it.

    [Encode] and [SendStatus] take two more functions from the standard
    library, the class [Encoders].  [Locals] works on the
    [context.Context] of the request, which is carried beside the request
    record (the record [RequestScope.scoped]). *)

From stdpp Require Import gmap strings list fin_maps.
From Stdlib Require Import ZArith Ascii.

Local Open Scope Z_scope.
Local Open Scope string_scope.
Local Open Scope list_scope.

(** ** Errors *)

(** Go error values.  [errEmptyBody] and [errInvalidBody] are the two
    package-level sentinels of [ctx.go]; every other error is an
    [errors.New]-style value carrying its message. *)
Inductive error : Type :=
| errEmptyBody
| errInvalidBody
| errorsNew (msg : string).

(** [err.Error()] *)
Definition Error (e : error) : string :=
  match e with
  | errEmptyBody => "empty body"
  | errInvalidBody => "invalid body"
  | errorsNew msg => msg
  end.

(** Errors returned by [json.Decoder.Decode]: [io.EOF] when the input holds
    no value at all, anything else otherwise (syntax errors, type
    mismatches, [io.ErrUnexpectedEOF], ...). *)
Inductive decodeError : Type :=
| io_EOF
| jsonError (msg : string).

(** [errors.Is(err, io.EOF)] *)
Definition errors_Is_EOF (err : decodeError) : bool :=
  match err with
  | io_EOF => true
  | jsonError _ => false
  end.

(** ** [net/http] data *)

Module http.

(** [http.Header]: canonical key to the list of its values. *)
Abbreviation Header := (gmap string (list string)).

(** The fields of [*http.Request] the package reads. *)
Record Request : Type := mkRequest {
  Method : string;
  Path : string;          (* r.URL.Path *)
  ReqHeader : Header;     (* r.Header, the inbound headers *)
  Body : string           (* what is left to read of r.Body *)
}.

Definition withBody (body : string) (r : Request) : Request :=
  {| Method := Method r; Path := Path r; ReqHeader := ReqHeader r; Body := body |}.

Definition withPath (path : string) (r : Request) : Request :=
  {| Method := Method r; Path := path; ReqHeader := ReqHeader r; Body := Body r |}.

Definition MethodGet := "GET".
Definition MethodHead := "HEAD".
Definition MethodPost := "POST".
Definition MethodPut := "PUT".
Definition MethodPatch := "PATCH".
Definition MethodDelete := "DELETE".
Definition MethodOptions := "OPTIONS".

Definition StatusOK : Z := 200.
Definition StatusNoContent : Z := 204.
Definition StatusBadRequest : Z := 400.
Definition StatusForbidden : Z := 403.
Definition StatusNotFound : Z := 404.
Definition StatusInternalServerError : Z := 500.

End http.

(** The response sink behind [http.ResponseWriter], with the behaviour of
    [httptest.ResponseRecorder] (the writer of the package's tests) and of
    the server's own writer: the first [WriteHeader] fixes the status line,
    later calls are ignored; a [Write] before any [WriteHeader] sends 200
    first; body bytes are appended.

    The sink is modelled where it neither panics nor refuses a body.  Go's
    [WriteHeader] panics on a first code below 100 or above 999 and treats
    the codes 100 to 199 as informational; Go's [Write] returns
    [http.ErrBodyNotAllowed] under a status line of 100 to 199, 204 or 304,
    and sniffs a [Content-Type] when the first write meets none.  The
    properties about [Write], [SendError], [Encode], [JSON] and [SendStatus]
    state the codes and headers they cover as hypotheses. *)
Module httptest.

Record ResponseRecorder : Type := mkRecorder {
  HeaderMap : http.Header;   (* the outbound headers, w.Header() *)
  wroteHeader : bool;
  Code : Z;                  (* the status line, once written *)
  Body : string
}.

(** [httptest.NewRecorder()] *)
Definition NewRecorder : ResponseRecorder :=
  {| HeaderMap := ∅; wroteHeader := false; Code := 200; Body := "" |}.

Definition withHeaderMap (h : http.Header) (rw : ResponseRecorder) : ResponseRecorder :=
  {| HeaderMap := h; wroteHeader := wroteHeader rw; Code := Code rw; Body := Body rw |}.

(** [w.WriteHeader(code)], for a code it accepts. *)
Definition WriteHeader (code : Z) (rw : ResponseRecorder) : ResponseRecorder :=
  if wroteHeader rw then rw
  else {| HeaderMap := HeaderMap rw; wroteHeader := true; Code := code; Body := Body rw |}.

(** [w.Write(buf)], under a status line that allows a body and with the
    [Content-Type] decided. *)
Definition Write (buf : string) (rw : ResponseRecorder) : ResponseRecorder * option error :=
  let rw := if wroteHeader rw then rw else WriteHeader 200 rw in
  ({| HeaderMap := HeaderMap rw; wroteHeader := wroteHeader rw; Code := Code rw;
      Body := Body rw +:+ buf |}, None).

End httptest.

Abbreviation ResponseWriter := httptest.ResponseRecorder.

(** ** Collaborators from the Go standard library *)

Class Collaborators : Type := {
  (* the values a decode target (data any) can hold *)
  Data : Type;
  (* textproto.CanonicalMIMEHeaderKey *)
  CanonicalHeaderKey : string -> string;
  (* json.NewDecoder(body).Decode(data): the unread rest of the body, the
     target after the call, and the decoder's error *)
  json_Decode : string -> Data -> string * Data * option decodeError;
  (* ServeMux: whether a pattern parses *)
  pattern_valid : string -> bool;
  (* ServeMux: whether two different patterns conflict *)
  patterns_overlap : string -> string -> bool;
  (* ServeMux: whether a pattern other than the catch-all matches a request *)
  pattern_matches : string -> http.Request -> bool;
  (* ServeMux: which of two matching patterns takes precedence *)
  more_specific : string -> string -> bool;
  (* ServeMux: the reply when no pattern matches (404, 405, redirect) *)
  mux_no_match : http.Request -> ResponseWriter -> ResponseWriter
}.

Section Header.
Context {go : Collaborators}.

(** [h.Get(key)] *)
Definition Header_Get (h : http.Header) (key : string) : string :=
  match h !! CanonicalHeaderKey key with
  | Some (v :: _) => v
  | _ => ""
  end.

(** [h.Set(key, value)] *)
Definition Header_Set (h : http.Header) (key value : string) : http.Header :=
  <[CanonicalHeaderKey key := [value]]> h.

(** [h.Del(key)] *)
Definition Header_Del (h : http.Header) (key : string) : http.Header :=
  delete (CanonicalHeaderKey key) h.

(** [fmt.Fprintln] ends the line with a line feed. *)
Definition newline : string := String (Ascii.ascii_of_nat 10) "".

(** [http.Error(w, error, code)]: the [Content-Length] of some other content
    is dropped (since Go 1.23), two headers are set, then come the status
    line and the message as a line of text. *)
Definition http_Error (w : ResponseWriter) (msg : string) (code : Z) : ResponseWriter :=
  let w := httptest.withHeaderMap
             (Header_Del (httptest.HeaderMap w) "Content-Length") w in
  let w := httptest.withHeaderMap
             (Header_Set (httptest.HeaderMap w) "Content-Type" "text/plain; charset=utf-8") w in
  let w := httptest.withHeaderMap
             (Header_Set (httptest.HeaderMap w) "X-Content-Type-Options" "nosniff") w in
  let w := httptest.WriteHeader code w in
  fst (httptest.Write (msg +:+ newline) w).

End Header.

(** What [Encode] and [SendStatus] take from the standard library besides. *)
Class Encoders {go : Collaborators} : Type := {
  (* json.NewEncoder(w) with SetIndent("", "  "), then Encode(data): the
     bytes it hands to w in one Write (the indented document and a line
     feed), or the error of marshalling, in which case it writes nothing *)
  json_Encode : Data -> string + error;
  (* http.StatusText *)
  StatusText : Z -> string
}.

(** ** The request context ([ctx.go]) *)

Module Ctx.
Section Ctx.
Context {go : Collaborators}.

(** [Validater]: the one method [Struct(data any) error]. *)
Definition Validater : Type := Data -> option error.

(** [type ctx struct]; a [nil] validator is [None]. *)
Record ctx : Type := mkCtx {
  validator : option Validater;
  response : ResponseWriter;
  request : http.Request;
  status : Z
}.

Definition withResponse (w : ResponseWriter) (c : ctx) : ctx :=
  {| validator := validator c; response := w; request := request c; status := status c |}.

Definition withRequest (r : http.Request) (c : ctx) : ctx :=
  {| validator := validator c; response := response c; request := r; status := status c |}.

(** [NewCtx(validator, w, r)] *)
Definition NewCtx (v : option Validater) (w : ResponseWriter) (r : http.Request) : ctx :=
  {| validator := v; response := w; request := r; status := http.StatusOK |}.

(** [c.Response()] *)
Definition Response (c : ctx) : ResponseWriter := response c.

(** [c.Request()] *)
Definition Request (c : ctx) : http.Request := request c.

(** [c.Status(code)]: stores the code, writes nothing. *)
Definition Status (code : Z) (c : ctx) : ctx :=
  {| validator := validator c; response := response c; request := request c; status := code |}.

(** [c.Get(key, defaultValue...)] *)
Definition Get (key : string) (defaultValue : list string) (c : ctx) : string :=
  let header := Header_Get (httptest.HeaderMap (response c)) key in
  if (String.length header =? 0)%nat then
    match defaultValue with
    | [] => ""
    | d :: _ => d
    end
  else header.

(** [c.Set(key, value)] *)
Definition Set_ (key value : string) (c : ctx) : ctx :=
  withResponse
    (httptest.withHeaderMap (Header_Set (httptest.HeaderMap (response c)) key value) (response c))
    c.

(** [c.ContentType(value)] *)
Definition ContentType (value : string) (c : ctx) : ctx :=
  Set_ "Content-Type" value c.

(** The method test of [Decode]. *)
Definition bodyRequired (method : string) : bool :=
  String.eqb method http.MethodPost
  || String.eqb method http.MethodPut
  || String.eqb method http.MethodPatch
  || String.eqb method http.MethodDelete.

(** [c.Decode(data)]: the context, the target and the error after the call. *)
Definition Decode (data : Data) (c : ctx) : ctx * Data * option error :=
  match json_Decode (http.Body (request c)) data with
  | (rest, data, Some err) =>
      let c := withRequest (http.withBody rest (request c)) c in
      let c := Status http.StatusBadRequest c in
      if bodyRequired (http.Method (request c)) && errors_Is_EOF err
      then (c, data, Some errEmptyBody)
      else (c, data, Some errInvalidBody)
  | (rest, data, None) =>
      (withRequest (http.withBody rest (request c)) c, data, None)
  end.

(** [c.Validate(data)] *)
Definition Validate (data : Data) (c : ctx) : ctx * Data * option error :=
  match Decode data c with
  | (c, data, Some err) => (c, data, Some err)
  | (c, data, None) =>
      match validator c with
      | Some v =>
          match v data with
          | Some err => (Status http.StatusBadRequest c, data, Some err)
          | None => (c, data, None)
          end
      | None => (c, data, None)
      end
  end.

(** [c.Write(message)] *)
Definition Write (message : string) (c : ctx) : ctx * option error :=
  let c := ContentType "text/plain; charset=utf-8" c in
  let c := withResponse (httptest.WriteHeader (status c) (response c)) c in
  if (status c =? http.StatusNoContent)%Z then (c, None)
  else
    match httptest.Write message (response c) with
    | (w, Some err) => (withResponse w c, Some err)
    | (w, None) => (withResponse w c, None)
    end.

(** [c.Next()] *)
Definition Next (c : ctx) : ctx * option error := (c, None).

(** [c.SendError(message)] *)
Definition SendError (message : error) (c : ctx) : ctx * option error :=
  (withResponse (httptest.WriteHeader (status c) (response c)) c, Some message).

End Ctx.

Section Output.
Context {go : Collaborators} {enc : Encoders}.

(** [c.Encode(data)] *)
Definition Encode (data : Data) (c : ctx) : ctx * option error :=
  match json_Encode data with
  | inr err => (c, Some err)
  | inl text =>
      match httptest.Write text (response c) with
      | (w, Some err) => (withResponse w c, Some err)
      | (w, None) => (withResponse w c, None)
      end
  end.

(** [c.JSON(data)] *)
Definition JSON (data : Data) (c : ctx) : ctx * option error :=
  let c := ContentType "application/json" c in
  let c := withResponse (httptest.WriteHeader (status c) (response c)) c in
  Encode data c.

(** [c.SendStatus(code)] *)
Definition SendStatus (code : Z) (c : ctx) : ctx * option error :=
  let c := Status code c in
  Write (StatusText code) c.

End Output.

End Ctx.

(** ** The router ([wayes.go]) *)

(** Outcome of a call that may panic. *)
Inductive result (A : Type) : Type :=
| Ok (a : A)
| Panic (msg : string).
Arguments Ok {A} a.
Arguments Panic {A} msg.

(** [strings.TrimPrefix] and the test it hides. *)
Fixpoint CutPrefix (s prefix : string) : option string :=
  match prefix with
  | EmptyString => Some s
  | String a prefix' =>
      match s with
      | EmptyString => None
      | String b s' => if Ascii.eqb a b then CutPrefix s' prefix' else None
      end
  end.

Definition TrimPrefix (s prefix : string) : string :=
  match CutPrefix s prefix with
  | Some rest => rest
  | None => s
  end.

(** The segments of a path after its leading slash, [acc] being the
    segment read so far. *)
Fixpoint pathSegments (acc p : string) : list string :=
  match p with
  | EmptyString => [acc]
  | String a p' =>
      if Ascii.eqb a "/"%char then acc :: pathSegments "" p'
      else pathSegments (acc +:+ String a "") p'
  end.

Fixpoint cleanSegments (segs : list string) : bool :=
  match segs with
  | [] => true
  | [seg] => negb (String.eqb seg ".") && negb (String.eqb seg "..")
  | seg :: segs' =>
      negb (String.eqb seg "") && negb (String.eqb seg ".") && negb (String.eqb seg "..")
      && cleanSegments segs'
  end.

(** The paths [ServeMux] serves as they come, because its [cleanPath] leaves
    them alone: rooted, with no empty segment but a last one (a trailing
    slash), and no segment [.] or [..].  A request with another path is
    answered by the mux itself, with a redirect to the cleaned path. *)
Definition isCleanPath (p : string) : bool :=
  match p with
  | String a p' => Ascii.eqb a "/"%char && cleanSegments (pathSegments "" p')
  | EmptyString => false
  end.

(** ** Request-scoped values ([Locals] of [ctx.go]) *)

Module RequestScope.
Section RequestScope.
Context {go : Collaborators}.
(** Keys are the comparable values a key of type [any] can hold, values the
    values of type [any]; [None] is [nil] for both. *)
Context {K V : Type} `{EqDecision K}.

(** A [context.Context] as [Value] sees it: the pairs attached with
    [WithValue], newest first; [context.Background()] is the empty list. *)
Definition Values : Type := list (K * option V).

(** [ctx.Value(key)]: the value of the newest pair with that key, [nil]
    when there is none. *)
Fixpoint Value (key : option K) (ctx : Values) : option V :=
  match ctx with
  | [] => None
  | (k, v) :: parent =>
      if decide (key = Some k) then v else Value key parent
  end.

(** [context.WithValue(parent, key, val)]: panics on a [nil] key. *)
Definition WithValue (parent : Values) (key : option K) (val : option V) : result Values :=
  match key with
  | None => Panic "nil key"
  | Some k => Ok ((k, val) :: parent)
  end.

(** A [ctx] with the context of its request, [c.request.Context()], beside
    it: [r.WithContext(ctx)] copies the request and changes that context
    only. *)
Record scoped : Type := mkScoped {
  base : Ctx.ctx;
  requestContext : Values
}.

(** [c.Locals(key, value...)]: the context after the call and the value
    returned. *)
Definition Locals (key : option K) (value : list (option V)) (c : scoped)
  : result (scoped * option V) :=
  match value with
  | [] => Ok (c, Value key (requestContext c))
  | v :: _ =>
      match WithValue (requestContext c) key v with
      | Ok loadCtx => Ok ({| base := base c; requestContext := loadCtx |}, v)
      | Panic msg => Panic msg
      end
  end.

End RequestScope.
End RequestScope.

Module Wayes.
Section Wayes.
Context {go : Collaborators}.

(** [type Handler func(ctx Ctx) error]: the context after the call and the
    returned error. *)
Definition Handler : Type := Ctx.ctx -> Ctx.ctx * option error.

(** Pointers to routers ([*wayes]) and to muxes ([*http.ServeMux]). *)
Definition loc : Type := nat.

(** [type wayes struct] *)
Record wayes : Type := mkWayes {
  validator : option Ctx.Validater;
  mux : loc;
  middlewares : list Handler
}.

(** The [http.Handler] values the package registers on a mux. *)
Inductive muxHandler : Type :=
  (* func(w, r) { rt.handler(handler, w, r) } *)
| HandlerFunc (rt : loc) (handler : Handler)
  (* http.StripPrefix(prefix, h), with h a mux *)
| StripPrefix (prefix : string) (h : loc)
  (* a *http.ServeMux used as a handler *)
| MuxHandler (h : loc).

(** A [ServeMux] is its registrations, oldest first. *)
Local Abbreviation ServeMux := (list (string * muxHandler)).

(** The heap: routers and muxes by location. *)
Record Store : Type := mkStore {
  routers : gmap loc wayes;
  muxes : gmap loc ServeMux
}.

Definition emptyStore : Store := {| routers := ∅; muxes := ∅ |}.

(** Calls that read or change the heap and may panic. *)
Definition M (A : Type) : Type := Store -> result (A * Store).

Definition ret {A} (a : A) : M A := fun s => Ok (a, s).

Definition bind {A B} (m : M A) (k : A -> M B) : M B :=
  fun s =>
    match m s with
    | Ok (a, s') => k a s'
    | Panic msg => Panic msg
    end.

Notation "'let*' x := m 'in' k" := (bind m (fun x => k))
  (at level 10, x name, m at level 100, k at level 200).

Definition nilDereference : string := "invalid memory address or nil pointer dereference".

(** [*rt] *)
Definition deref (rt : loc) : M wayes :=
  fun s =>
    match routers s !! rt with
    | Some w => Ok (w, s)
    | None => Panic nilDereference
    end.

(** ** The dispatch loop *)

(** The [for _, middleware := range rt.middlewares] loop of [handler]: stops
    at the first middleware that returns an error. *)
Fixpoint run_middlewares (ms : list Handler) (context : Ctx.ctx) : Ctx.ctx * option error :=
  match ms with
  | [] => (context, None)
  | middleware :: ms' =>
      match middleware context with
      | (context, Some err) => (context, Some err)
      | (context, None) => run_middlewares ms' context
      end
  end.

(** [rt.handler(handler, w, r)]: the response sink after the call. *)
Definition handler (rt : wayes) (h : Handler) (w : ResponseWriter) (r : http.Request)
  : ResponseWriter :=
  let context := Ctx.NewCtx (validator rt) w r in
  match run_middlewares (middlewares rt) context with
  | (context, Some err) =>
      http_Error (Ctx.Response context) (Error err) http.StatusInternalServerError
  | (context, None) =>
      match h context with
      | (context, Some err) =>
          http_Error (Ctx.Response context) (Error err) http.StatusInternalServerError
      | (context, None) => Ctx.Response context
      end
  end.

(** What a dispatch calls: the middleware at an index of the list, or the
    terminal handler. *)
Inductive step : Type :=
| Middleware (i : nat)
| Terminal.

(** The loop of [handler] again, recording each call it makes; [i] is the
    index of the head of [ms] in the router's list. *)
Fixpoint steps_middlewares (i : nat) (ms : list Handler) (context : Ctx.ctx)
  : list step * (Ctx.ctx * option error) :=
  match ms with
  | [] => ([], (context, None))
  | middleware :: ms' =>
      match middleware context with
      | (context, Some err) => ([Middleware i], (context, Some err))
      | (context, None) =>
          let (tr, out) := steps_middlewares (S i) ms' context in
          (Middleware i :: tr, out)
      end
  end.

(** The calls [rt.handler(handler, w, r)] makes, in order. *)
Definition handler_steps (rt : wayes) (h : Handler) (w : ResponseWriter) (r : http.Request)
  : list step :=
  let context := Ctx.NewCtx (validator rt) w r in
  match steps_middlewares 0 (middlewares rt) context with
  | (tr, (_, Some _)) => tr
  | (tr, (_, None)) => (tr ++ [Terminal])%list
  end.

(** ** Registration *)

(** [http.NewServeMux()] *)
Definition NewServeMux : M loc :=
  fun s =>
    let m := fresh (dom (muxes s)) in
    Ok (m, {| routers := routers s; muxes := <[m := []]> (muxes s) |}).

(** [New(validator...)] *)
Definition New (validator : list (option Ctx.Validater)) : M loc :=
  let validator := if (length validator =? 0)%nat then [None] else validator in
  let* m := NewServeMux in
  fun s =>
    let rt := fresh (dom (routers s)) in
    Ok (rt, {| routers := <[rt := {| validator := match validator with
                                                   | v :: _ => v
                                                   | [] => None
                                                   end;
                                     mux := m;
                                     middlewares := [] |}]> (routers s);
               muxes := muxes s |}).

(** [rt.Mux()] *)
Definition Mux (rt : loc) : M loc :=
  let* w := deref rt in ret (mux w).

(** Two patterns conflict when they are the same pattern, or overlap with
    neither more specific than the other. *)
Definition conflictsWith (p q : string) : bool :=
  String.eqb p q || patterns_overlap p q.

(** [mux.Handle(pattern, h)]: panics on a pattern that does not parse or
    that conflicts with a registered one. *)
Definition Handle (m : loc) (pattern : string) (h : muxHandler) : M unit :=
  fun s =>
    match muxes s !! m with
    | None => Panic nilDereference
    | Some entries =>
        if negb (pattern_valid pattern) then Panic ("invalid pattern " +:+ pattern)
        else if existsb (fun e => conflictsWith pattern (fst e)) entries
        then Panic ("pattern " +:+ pattern +:+ " conflicts with a registered pattern")
        else Ok (tt, {| routers := routers s;
                        muxes := <[m := (entries ++ [(pattern, h)])%list]> (muxes s) |})
    end.

(** The seven registration methods differ in the method name only:
    [rt.mux.HandleFunc(fmt.Sprintf("<METHOD> %s", path), func(w, r) { rt.handler(handler, w, r) })]. *)
Definition route (method : string) (rt : loc) (path : string) (h : Handler) : M unit :=
  let* w := deref rt in
  Handle (mux w) (method +:+ " " +:+ path) (HandlerFunc rt h).

Definition Head := route "HEAD".
Definition Get := route "GET".
Definition Options := route "OPTIONS".
Definition Post := route "POST".
Definition Patch := route "PATCH".
Definition Put := route "PUT".
Definition Delete := route "DELETE".

(** [rt.middlewares = append(rt.middlewares, handler)] *)
Definition appendMiddleware (rt : loc) (handler : Handler) : M unit :=
  let* w := deref rt in
  fun s =>
    Ok (tt, {| routers := <[rt := {| validator := validator w;
                                     mux := mux w;
                                     middlewares := (middlewares w ++ [handler])%list |}]>
                            (routers s);
               muxes := muxes s |}).

(** [rt.Use(handlers...)]: the loop reads and writes the router once for
    each handler, so a call without handlers does not touch it. *)
Fixpoint Use (rt : loc) (handlers : list Handler) : M unit :=
  match handlers with
  | [] => ret tt
  | handler :: handlers' =>
      let* _ := appendMiddleware rt handler in
      Use rt handlers'
  end.

(** [http.StripPrefix(prefix, h)] *)
Definition http_StripPrefix (prefix : string) (h : loc) : muxHandler :=
  if String.eqb prefix "" then MuxHandler h else StripPrefix prefix h.

(** [rt.Group(path)] *)
Definition Group (rt : loc) (path : string) : M loc :=
  let* w := deref rt in
  let* group := New [validator w] in
  let* _ := Use group (middlewares w) in
  let* gm := Mux group in
  let* _ := Handle (mux w) (path +:+ "/") (http_StripPrefix path gm) in
  ret group.

(** The loop of [Combine]. *)
Fixpoint Combine_loop (rt : loc) (routers : list loc) : M unit :=
  match routers with
  | [] => ret tt
  | router :: routers' =>
      let* m := Mux rt in
      let* _ := Handle m "/" (MuxHandler router) in
      Combine_loop rt routers'
  end.

(** [rt.Combine(routers...)] *)
Definition Combine (rt : loc) (routers : list loc) : M loc :=
  let* _ := Combine_loop rt routers in
  Mux rt.

(** ** Serving *)

(** Matching, for the requests a mux serves as they come (it answers the
    others itself: a path that is not clean with a redirect to the cleaned
    path, and a path that only matches a registered pattern once a slash is
    added with a redirect to that path).  The catch-all pattern matches
    every such request; the other patterns are matched by the mux's pattern
    language. *)
Definition matches (pattern : string) (r : http.Request) : bool :=
  String.eqb pattern "/" || pattern_matches pattern r.

(** The registration the mux selects for a request: among the matching
    patterns, the most specific one. *)
Definition findHandler (entries : ServeMux) (r : http.Request) : option (string * muxHandler) :=
  foldl (fun best e =>
           if matches (fst e) r then
             match best with
             | None => Some e
             | Some b => if more_specific (fst e) (fst b) then Some e else best
             end
           else best)
        None entries.

(** [http.NotFound(w, r)] *)
Definition http_NotFound (w : ResponseWriter) : ResponseWriter :=
  http_Error w "404 page not found" http.StatusNotFound.

(** The closure a registration method puts on the mux,
    [func(w, r) { rt.handler(handler, w, r) }]: it reads the router through
    its pointer when the request arrives. *)
Definition dispatch (s : Store) (rt : loc) (h : Handler) (w : ResponseWriter) (r : http.Request)
  : option ResponseWriter :=
  match routers s !! rt with
  | Some rtv => Some (handler rtv h w r)
  | None => None
  end.

(** [mux.ServeHTTP(w, r)]: the response sink after the call, for a request
    the mux does not redirect and whose URL has no escaped raw path (so that
    [http.StripPrefix] decides on the path alone).  The muxes of a store
    may delegate to one another in a cycle, so the recursion is bounded by
    [fuel]; [None] is a call that does not return within it (or that
    follows a dangling pointer). *)
Fixpoint ServeHTTP (fuel : nat) (s : Store) (m : loc) (w : ResponseWriter) (r : http.Request)
  : option ResponseWriter :=
  match fuel with
  | O => None
  | S fuel =>
      match muxes s !! m with
      | None => None
      | Some entries =>
          match findHandler entries r with
          | None => Some (mux_no_match r w)
          | Some (_, HandlerFunc rt h) => dispatch s rt h w r
          | Some (_, StripPrefix prefix h) =>
              let p := TrimPrefix (http.Path r) prefix in
              if (String.length p <? String.length (http.Path r))%nat
              then ServeHTTP fuel s h w (http.withPath p r)
              else Some (http_NotFound w)
          | Some (_, MuxHandler h) => ServeHTTP fuel s h w r
          end
      end
  end.

End Wayes.

Abbreviation ServeMux := (list (string * muxHandler)).

End Wayes.

(** ** A concrete standard library, for running the embedding

    Decode targets are the JSON text itself; a body is a valid document when
    it opens an object; header keys are taken as already canonical; a
    pattern is [[METHOD ]PATH], where a path ending in [/] matches every
    path it is a prefix of and any other path matches itself, and the longer
    of two matching patterns wins. *)
Module Fixture.

Definition decode (body : string) (data : string) : string * string * option decodeError :=
  match body with
  | EmptyString => ("", data, Some io_EOF)
  | String c _ =>
      if Ascii.eqb c "{"%char then ("", body, None)
      else ("", data, Some (jsonError "invalid character looking for beginning of value"))
  end.

Fixpoint splitMethod (acc pattern : string) : option (string * string) :=
  match pattern with
  | EmptyString => None
  | String c rest =>
      if Ascii.eqb c " "%char then Some (acc, rest)
      else splitMethod (acc +:+ String c "") rest
  end.

Fixpoint endsWithSlash (s : string) : bool :=
  match s with
  | EmptyString => false
  | String c EmptyString => Ascii.eqb c "/"%char
  | String _ rest => endsWithSlash rest
  end.

Definition pathMatches (pattern path : string) : bool :=
  if endsWithSlash pattern then String.prefix pattern path else String.eqb pattern path.

Definition patternMatches (pattern : string) (r : http.Request) : bool :=
  match splitMethod "" pattern with
  | Some (method, path) => String.eqb method (http.Method r) && pathMatches path (http.Path r)
  | None => pathMatches pattern (http.Path r)
  end.

Definition notFound (r : http.Request) (w : ResponseWriter) : ResponseWriter :=
  fst (httptest.Write "404 page not found" (httptest.WriteHeader http.StatusNotFound w)).

Definition stdlib : Collaborators := {|
  Data := string;
  CanonicalHeaderKey := fun key => key;
  json_Decode := decode;
  pattern_valid := fun pattern => negb (String.eqb pattern "");
  patterns_overlap := fun _ _ => false;
  pattern_matches := patternMatches;
  more_specific := fun p q => (String.length q <? String.length p)%nat;
  mux_no_match := notFound
|}.

(** A request with no inbound headers. *)
Definition request (method path body : string) : http.Request :=
  {| http.Method := method; http.Path := path; http.ReqHeader := ∅; http.Body := body |}.

(** [func(ctx Ctx) error { return ctx.Write(message) }] *)
Definition writes (message : string) : @Wayes.Handler stdlib :=
  fun c => Ctx.Write message c.

(** [func(ctx Ctx) error { return errors.New(message) }] *)
Definition fails (message : string) : @Wayes.Handler stdlib :=
  fun c => (c, Some (errorsNew message)).

(** [func(ctx Ctx) error { return ctx.Status(code).SendError(errors.New(message)) }] *)
Definition sendsError (code : Z) (message : string) : @Wayes.Handler stdlib :=
  fun c => Ctx.SendError (errorsNew message) (Ctx.Status code c).

(** [func(ctx Ctx) error { ctx.Status(code); return errors.New(message) }] *)
Definition setsStatusAndFails (code : Z) (message : string) : @Wayes.Handler stdlib :=
  fun c => (Ctx.Status code c, Some (errorsNew message)).

(** [func(ctx Ctx) error { return ctx.Next() }] *)
Definition next : @Wayes.Handler stdlib :=
  fun c => Ctx.Next c.

(** A validator that rejects everything, as [ValidatorMock{true}] of the tests. *)
Definition rejectAll : @Ctx.Validater stdlib :=
  fun _ => Some (errorsNew "test error").

(** [ValidatorMock{}] *)
Definition acceptAll : @Ctx.Validater stdlib :=
  fun _ => None.

(** A context on a fresh recorder. *)
Definition context (v : option (@Ctx.Validater stdlib)) (method body : string) : @Ctx.ctx stdlib :=
  Ctx.NewCtx v httptest.NewRecorder (request method "/test" body).

(** A router value with the given middleware. *)
Definition router (ms : list (@Wayes.Handler stdlib)) : @Wayes.wayes stdlib :=
  {| Wayes.validator := None; Wayes.mux := 0%nat; Wayes.middlewares := ms |}.

(** The store a call leaves (the store it started from if it panics). *)
Definition exec {A : Type} (m : @Wayes.M stdlib A) (s : @Wayes.Store stdlib) : @Wayes.Store stdlib :=
  match m s with
  | Ok (_, s') => s'
  | Panic _ => s
  end.

(** [rt := New(); rt.Use(next, next)]: the router is at location 0. *)
Definition storeParent : @Wayes.Store stdlib :=
  exec (Wayes.Use 0%nat [next; next]) (exec (Wayes.New []) Wayes.emptyStore).

(** [... ; group := rt.Group("/users")]: the group is at location 1. *)
Definition storeGroup : @Wayes.Store stdlib :=
  exec (Wayes.Group 0%nat "/users") storeParent.

(** [rt := New(); rt2 := New(); rt3 := New()]: routers and their muxes at
    locations 0, 1 and 2. *)
Definition storeThree : @Wayes.Store stdlib :=
  exec (Wayes.New []) (exec (Wayes.New []) (exec (Wayes.New []) Wayes.emptyStore)).

(** The setting of the package's [Combine] test:
    [rt := New(); v1 := rt.Group("/v1"); rt2 := New(); v2 := rt2.Group("/v2");
     v1.Get("/test-get", ...); v2.Get("/test-get", ...)].
    Routers [rt], [v1], [rt2], [v2] are at locations 0, 1, 2, 3, each with
    its mux at the same number. *)
Definition storeVersions : @Wayes.Store stdlib :=
  exec (Wayes.Get 3%nat "/test-get" (writes "response users version 2"))
    (exec (Wayes.Get 1%nat "/test-get" (writes "response users version 1"))
       (exec (Wayes.Group 2%nat "/v2")
          (exec (Wayes.New [])
             (exec (Wayes.Group 0%nat "/v1")
                (exec (Wayes.New []) Wayes.emptyStore))))).

(** [... ; rt.Combine(rt2.Mux())] *)
Definition storeCombined : @Wayes.Store stdlib :=
  exec (Wayes.Combine 0%nat [2%nat]) storeVersions.

(** An encoder for the documents [decode] accepts, and a few reason phrases. *)
Definition encode (data : string) : string + error :=
  match data with
  | EmptyString => inr (errorsNew "json: unsupported value")
  | String c _ =>
      if Ascii.eqb c "{"%char then inl (data +:+ newline)
      else inr (errorsNew "json: unsupported value")
  end.

Definition statusText (code : Z) : string :=
  match code with
  | 200 => "OK"
  | 204 => "No Content"
  | 400 => "Bad Request"
  | 403 => "Forbidden"
  | 404 => "Not Found"
  | 500 => "Internal Server Error"
  | _ => ""
  end.

Definition encoders : @Encoders stdlib :=
  @Build_Encoders stdlib encode statusText.

(** A context with the background context of a new request: string keys,
    integer values. *)
Definition scopedContext : @RequestScope.scoped stdlib string Z :=
  {| RequestScope.base := context None "GET" ""; RequestScope.requestContext := [] |}.

(** [rt := New(); rt.Get("/test-get", write)], the router and its mux at
    location 0. *)
Definition storeRoute : @Wayes.Store stdlib :=
  exec (Wayes.Get 0%nat "/test-get" (writes "Test get response"))
    (exec (Wayes.New []) Wayes.emptyStore).



(** [func(ctx Ctx) error { ctx.ContentType("application/json"); return errors.New(message) }] *)
Definition preparesJSONAndFails (message : string) : @Wayes.Handler stdlib :=
  fun c => (Ctx.ContentType "application/json" c, Some (errorsNew message)).

End Fixture.

(** * Properties of the request context *)

Section CtxProperties.
Context {go : Collaborators}.

Lemma Header_Get_Set (h : http.Header) (key value : string) :
  Header_Get (Header_Set h key value) key = value.
Proof. unfold Header_Get, Header_Set. by rewrite lookup_insert_eq. Qed.

Lemma length_zero_empty (s : string) : (String.length s =? 0)%nat = true <-> s = "".
Proof.
  destruct s; simpl; split; intros Hs; try done.
Qed.

Lemma Get_absent (key : string) (defaultValue : list string) (c : Ctx.ctx) :
  Header_Get (httptest.HeaderMap (Ctx.response c)) key = "" ->
  Ctx.Get key defaultValue c = match defaultValue with [] => "" | d :: _ => d end.
Proof. unfold Ctx.Get. intros ->. reflexivity. Qed.

(** C9: [Get] looks the key up in the outbound headers of the response and
    nowhere else: its result does not depend on the request at all; after
    [Set(key, value)] with a non-empty value it returns that value; and for
    a key with no outbound value it returns the first default when one is
    given and the empty string otherwise. *)
Theorem Get_reads_outbound_headers (c : Ctx.ctx) (key : string) (defaultValue : list string) :
  (forall r : http.Request,
      Ctx.Get key defaultValue (Ctx.withRequest r c) = Ctx.Get key defaultValue c)
  /\ (forall value : string,
         value <> "" -> Ctx.Get key defaultValue (Ctx.Set_ key value c) = value)
  /\ (httptest.HeaderMap (Ctx.response c) !! CanonicalHeaderKey key = None ->
      Ctx.Get key [] c = ""
      /\ forall d ds, Ctx.Get key (d :: ds) c = d).
Proof.
  split; [| split].
  - intros r. reflexivity.
  - intros value Hvalue. unfold Ctx.Get, Ctx.Set_. simpl.
    rewrite Header_Get_Set.
    destruct (String.length value =? 0)%nat eqn:Hlen; [| reflexivity].
    apply length_zero_empty in Hlen. contradiction.
  - intros Habsent.
    assert (Header_Get (httptest.HeaderMap (Ctx.response c)) key = "") as Hget.
    { unfold Header_Get. by rewrite Habsent. }
    split; [| intros d ds]; by rewrite Get_absent.
Qed.

Lemma bodyRequired_spec (method : string) :
  Ctx.bodyRequired method = true
  <-> method ∈ [http.MethodPost; http.MethodPut; http.MethodPatch; http.MethodDelete].
Proof.
  unfold Ctx.bodyRequired.
  rewrite !orb_true_iff, !String.eqb_eq, !elem_of_cons, elem_of_nil.
  tauto.
Qed.

Lemma Decode_failure (c : Ctx.ctx) (data : Data) rest data' err :
  json_Decode (http.Body (Ctx.request c)) data = (rest, data', Some err) ->
  Ctx.Decode data c =
    (Ctx.Status http.StatusBadRequest (Ctx.withRequest (http.withBody rest (Ctx.request c)) c),
     data',
     Some (if Ctx.bodyRequired (http.Method (Ctx.request c)) && errors_Is_EOF err
           then errEmptyBody else errInvalidBody)).
Proof.
  intros Hdec. unfold Ctx.Decode. rewrite Hdec. simpl.
  by destruct (Ctx.bodyRequired _ && errors_Is_EOF err).
Qed.

Lemma Decode_success (c : Ctx.ctx) (data : Data) rest data' :
  json_Decode (http.Body (Ctx.request c)) data = (rest, data', None) ->
  Ctx.Decode data c = (Ctx.withRequest (http.withBody rest (Ctx.request c)) c, data', None).
Proof. intros Hdec. unfold Ctx.Decode. by rewrite Hdec. Qed.

Lemma Decode_validator (c : Ctx.ctx) (data : Data) :
  Ctx.validator (Ctx.Decode data c).1.1 = Ctx.validator c.
Proof.
  destruct (json_Decode (http.Body (Ctx.request c)) data) as [[rest data'] [err|]] eqn:Hdec.
  - by rewrite (Decode_failure _ _ _ _ _ Hdec).
  - by rewrite (Decode_success _ _ _ _ Hdec).
Qed.

Lemma Decode_error_status (c c' : Ctx.ctx) (data data' : Data) (err : error) :
  Ctx.Decode data c = (c', data', Some err) -> Ctx.status c' = http.StatusBadRequest.
Proof.
  destruct (json_Decode (http.Body (Ctx.request c)) data) as [[rest d] [e|]] eqn:Hdec.
  - rewrite (Decode_failure _ _ _ _ _ Hdec). by intros [= <- _ _].
  - rewrite (Decode_success _ _ _ _ Hdec). intros [=].
Qed.

(** C4: whatever the decoder does with the body, [Decode] returns
    [errEmptyBody] exactly when the decoder failed with [io.EOF] and the
    method is POST, PUT, PATCH or DELETE; it returns [errInvalidBody]
    exactly on every other decoder failure; a failure sets the status to
    400; and it returns no error exactly when the decoder succeeded, leaving
    the status as it was. *)
Theorem Decode_error_taxonomy (c : Ctx.ctx) (data : Data)
    (rest : string) (data' : Data) (outcome : option decodeError) :
  json_Decode (http.Body (Ctx.request c)) data = (rest, data', outcome) ->
  let mutating :=
    http.Method (Ctx.request c) ∈ [http.MethodPost; http.MethodPut; http.MethodPatch; http.MethodDelete] in
  let c' := (Ctx.Decode data c).1.1 in
  let err := (Ctx.Decode data c).2 in
  (err = Some errEmptyBody <-> outcome = Some io_EOF /\ mutating)
  /\ (err = Some errInvalidBody <-> exists e, outcome = Some e /\ ~ (e = io_EOF /\ mutating))
  /\ (err = None <-> outcome = None)
  /\ (outcome <> None -> Ctx.status c' = 400)
  /\ (outcome = None -> Ctx.status c' = Ctx.status c)
  /\ (Ctx.Decode data c).1.2 = data'.
Proof.
  intros Hdec mutating c' err. subst mutating c' err.
  destruct outcome as [e|].
  - rewrite (Decode_failure _ _ _ _ _ Hdec). simpl.
    destruct (Ctx.bodyRequired (http.Method (Ctx.request c))) eqn:Hm; simpl.
    + apply bodyRequired_spec in Hm.
      destruct e; simpl; (split; [| split; [| split; [| split; [| split]]]]);
        try reflexivity; try discriminate; try (split; intros; discriminate).
      * split; [intros _; by split | reflexivity].
      * split; [discriminate | intros (e & [= <-] & Hn); exfalso; by apply Hn].
      * split; [discriminate | intros [[=] _]].
      * split; [intros _ | reflexivity].
        eexists. split; [reflexivity |]. intros [[=] _].
    + assert (~ http.Method (Ctx.request c)
                ∈ [http.MethodPost; http.MethodPut; http.MethodPatch; http.MethodDelete]) as Hn.
      { intros Hin. apply bodyRequired_spec in Hin. congruence. }
      (split; [| split; [| split; [| split; [| split]]]]);
        try reflexivity; try discriminate; try (split; intros; discriminate).
      * split; [discriminate | intros [_ Hin]; contradiction].
      * split; [intros _ | reflexivity].
        exists e. split; [reflexivity |]. intros [_ Hin]. contradiction.
  - rewrite (Decode_success _ _ _ _ Hdec). simpl.
    (split; [| split; [| split; [| split; [| split]]]]);
      try reflexivity; try (split; reflexivity); try (intros Hn; by destruct Hn).
    + split; [discriminate | intros [[=] _]].
    + split; [discriminate | intros (e & [=] & _)].
Qed.

(** C7: [Validate] starts with [Decode].  When [Decode] fails, [Validate]
    returns exactly what [Decode] returned, with the status at 400.  When
    [Decode] succeeds and a validator is configured, the validator is
    applied to the decoded target: if it rejects, the status becomes 400 and
    its error is returned as it is; if it accepts, there is no error.  With
    no validator, a successful [Decode] is a successful [Validate]. *)
Theorem Validate_after_Decode (c : Ctx.ctx) (data : Data)
    (c' : Ctx.ctx) (data' : Data) (decoded : option error) :
  Ctx.Decode data c = (c', data', decoded) ->
  (forall err, decoded = Some err ->
     Ctx.Validate data c = (c', data', Some err) /\ Ctx.status c' = 400)
  /\ (forall v err, decoded = None -> Ctx.validator c = Some v -> v data' = Some err ->
        Ctx.Validate data c = (Ctx.Status 400 c', data', Some err)
        /\ Ctx.status (Ctx.Validate data c).1.1 = 400)
  /\ (forall v, decoded = None -> Ctx.validator c = Some v -> v data' = None ->
        Ctx.Validate data c = (c', data', None))
  /\ (decoded = None -> Ctx.validator c = None ->
        Ctx.Validate data c = (c', data', None)).
Proof.
  intros Hdec.
  pose proof (Decode_validator c data) as Hv. rewrite Hdec in Hv. simpl in Hv.
  split; [| split; [| split]].
  - intros err ->. unfold Ctx.Validate. rewrite Hdec.
    split; [reflexivity |]. eapply Decode_error_status. exact Hdec.
  - intros v err -> Hc Hrej. unfold Ctx.Validate.
    rewrite Hdec, Hv, Hc, Hrej. split; reflexivity.
  - intros v -> Hc Hacc. unfold Ctx.Validate.
    rewrite Hdec, Hv, Hc, Hacc. reflexivity.
  - intros -> Hc. unfold Ctx.Validate.
    rewrite Hdec, Hv, Hc. reflexivity.
Qed.

(** C10: when the decoder accepts the body, [Validate] hands the decoded
    target to the validator, and a rejection leaves the caller with that
    decoded target: the target after a failed [Validate] is the decoder's
    output, and the error is the validator's verdict on it. *)
Theorem Validate_rejection_keeps_decoded_target (c : Ctx.ctx) (data : Data)
    (rest : string) (data' : Data) :
  json_Decode (http.Body (Ctx.request c)) data = (rest, data', None) ->
  (forall v err, Ctx.validator c = Some v -> v data' = Some err ->
     (Ctx.Validate data c).1.2 = data' /\ (Ctx.Validate data c).2 = Some err)
  /\ (forall err, (Ctx.Validate data c).2 = Some err ->
        (Ctx.Validate data c).1.2 = data'
        /\ exists v, Ctx.validator c = Some v /\ v data' = Some err).
Proof.
  intros Hdec. apply Decode_success in Hdec.
  unfold Ctx.Validate. rewrite Hdec. simpl.
  split.
  - intros v err -> ->. split; reflexivity.
  - intros err. destruct (Ctx.validator c) as [v|]; simpl; [| intros [=]].
    destruct (v data') as [e|] eqn:Hv; simpl; intros [=]. subst e.
    split; [reflexivity |]. exists v. split; [reflexivity | exact Hv].
Qed.

Lemma Write_response (message : string) (c : Ctx.ctx) :
  Ctx.response (Ctx.Write message c).1 =
    let w := httptest.withHeaderMap
               (Header_Set (httptest.HeaderMap (Ctx.response c))
                           "Content-Type" "text/plain; charset=utf-8")
               (Ctx.response c) in
    let w := httptest.WriteHeader (Ctx.status c) w in
    if (Ctx.status c =? http.StatusNoContent)%Z then w else (httptest.Write message w).1.
Proof.
  unfold Ctx.Write, Ctx.ContentType, Ctx.Set_. simpl.
  destruct (Ctx.status c =? http.StatusNoContent)%Z; reflexivity.
Qed.

(** C8, as the code has it: on a response whose status line has not been
    written yet, and under a stored status from 200 to 999 other than 304
    (a code [WriteHeader] accepts as the final status, and that is 204 or
    allows a body), [Write] returns no error, sets the outbound
    Content-Type to [text/plain; charset=utf-8], writes the stored status
    as the status line, and adds nothing to the body when that status is
    204 and the message otherwise; on a response with an empty body the
    body is then empty, respectively the message. *)
Theorem Write_on_unwritten_response (c : Ctx.ctx) (message : string) :
  httptest.wroteHeader (Ctx.response c) = false ->
  200 <= Ctx.status c <= 999 ->
  Ctx.status c <> 304 ->
  let c' := (Ctx.Write message c).1 in
  (Ctx.Write message c).2 = None
  /\ Ctx.Get "Content-Type" [] c' = "text/plain; charset=utf-8"
  /\ httptest.wroteHeader (Ctx.response c') = true
  /\ httptest.Code (Ctx.response c') = Ctx.status c
  /\ httptest.Body (Ctx.response c') =
       (if (Ctx.status c =? 204)%Z then httptest.Body (Ctx.response c)
        else httptest.Body (Ctx.response c) +:+ message)
  /\ (httptest.Body (Ctx.response c) = "" ->
      httptest.Body (Ctx.response c') = if (Ctx.status c =? 204)%Z then "" else message).
Proof.
  intros Hfresh _ _ c'. subst c'.
  assert (Ctx.Get "Content-Type" [] (Ctx.Write message c).1 = "text/plain; charset=utf-8") as Hct.
  { unfold Ctx.Get. rewrite Write_response. simpl.
    unfold httptest.WriteHeader. simpl. rewrite Hfresh.
    destruct (Ctx.status c =? http.StatusNoContent)%Z; simpl;
      by rewrite Header_Get_Set. }
  split; [| split; [exact Hct |]].
  - unfold Ctx.Write. simpl.
    destruct (Ctx.status c =? http.StatusNoContent)%Z; reflexivity.
  - rewrite Write_response. simpl. unfold httptest.WriteHeader. simpl. rewrite Hfresh.
    change http.StatusNoContent with 204.
    destruct (Ctx.status c =? 204)%Z; simpl; repeat split; try reflexivity;
      by intros ->.
Qed.

End CtxProperties.

(** * Properties of the dispatch loop *)

Section DispatchProperties.
Context {go : Collaborators}.

(** The recorded loop computes what the loop of [handler] computes. *)
Lemma steps_middlewares_run (i : nat) (ms : list Wayes.Handler) (c : Ctx.ctx) :
  (Wayes.steps_middlewares i ms c).2 = Wayes.run_middlewares ms c.
Proof.
  revert i c. induction ms as [| m ms IH]; intros i c; simpl; [reflexivity |].
  destruct (m c) as [c1 [err|]]; simpl; [reflexivity |].
  specialize (IH (S i) c1).
  destruct (Wayes.steps_middlewares (S i) ms c1) as [tr out]. exact IH.
Qed.

(** When every middleware succeeds, each one was called once, in list order. *)
Lemma steps_middlewares_success (i : nat) (ms : list Wayes.Handler) (c c' : Ctx.ctx) :
  Wayes.run_middlewares ms c = (c', None) ->
  (Wayes.steps_middlewares i ms c).1 = (Wayes.Middleware <$> seq i (length ms)).
Proof.
  revert i c. induction ms as [| m ms IH]; intros i c; simpl; [reflexivity |].
  destruct (m c) as [c1 [err|]]; simpl; [intros [=] |].
  intros Hrun. specialize (IH (S i) c1 Hrun).
  destruct (Wayes.steps_middlewares (S i) ms c1) as [tr out]. simpl in *.
  by rewrite IH.
Qed.

(** When the middleware at index [k] is the first to fail, the loop returns
    its context and error, and the calls are those of indices [0..k]. *)
Lemma steps_middlewares_failure (i k : nat) (ms : list Wayes.Handler)
    (c ck c' : Ctx.ctx) (mk : Wayes.Handler) (err : error) :
  ms !! k = Some mk ->
  Wayes.run_middlewares (take k ms) c = (ck, None) ->
  mk ck = (c', Some err) ->
  Wayes.run_middlewares ms c = (c', Some err)
  /\ (Wayes.steps_middlewares i ms c).1 = (Wayes.Middleware <$> seq i (S k)).
Proof.
  revert i k c. induction ms as [| m ms IH]; intros i k c Hk Hrun Hfail; [done |].
  destruct k as [| k]; simpl in *.
  - injection Hk as ->. injection Hrun as ->. rewrite Hfail. by split.
  - destruct (m c) as [c1 [e|]]; [done |].
    destruct (IH (S i) k c1 Hk Hrun Hfail) as [IH1 IH2].
    destruct (Wayes.steps_middlewares (S i) ms c1) as [tr out]. simpl in *.
    split; [exact IH1 | by rewrite IH2].
Qed.

(** A failing loop stopped at some index [k]: the middleware before it
    succeeded and the one at [k] returned the error. *)
Lemma run_middlewares_failed (ms : list Wayes.Handler) (c c' : Ctx.ctx) (err : error) :
  Wayes.run_middlewares ms c = (c', Some err) ->
  exists k mk ck,
    ms !! k = Some mk
    /\ Wayes.run_middlewares (take k ms) c = (ck, None)
    /\ mk ck = (c', Some err).
Proof.
  revert c. induction ms as [| m ms IH]; intros c; simpl; [intros [=] |].
  destruct (m c) as [c1 [e|]] eqn:Hm.
  - intros [= -> ->]. exists 0%nat, m, c. by repeat split.
  - intros Hrun. destruct (IH c1 Hrun) as (k & mk & ck & Hk & Htake & Hfail).
    exists (S k), mk, ck. simpl. rewrite Hm. by repeat split.
Qed.

Lemma handler_steps_success (rt : Wayes.wayes) (h : Wayes.Handler)
    (w : ResponseWriter) (r : http.Request) (cn : Ctx.ctx) :
  Wayes.run_middlewares (Wayes.middlewares rt) (Ctx.NewCtx (Wayes.validator rt) w r) = (cn, None) ->
  Wayes.handler_steps rt h w r =
    (Wayes.Middleware <$> seq 0 (length (Wayes.middlewares rt))) ++ [Wayes.Terminal].
Proof.
  intros Hrun. unfold Wayes.handler_steps.
  pose proof (steps_middlewares_run 0 (Wayes.middlewares rt) (Ctx.NewCtx (Wayes.validator rt) w r)) as Hout.
  pose proof (steps_middlewares_success 0 _ _ _ Hrun) as Htr.
  destruct (Wayes.steps_middlewares 0 _ _) as [tr out]. simpl in *.
  rewrite Hout, Hrun. by rewrite Htr.
Qed.

Lemma handler_steps_failure (rt : Wayes.wayes) (h : Wayes.Handler)
    (w : ResponseWriter) (r : http.Request)
    (k : nat) (mk : Wayes.Handler) (ck c' : Ctx.ctx) (err : error) :
  Wayes.middlewares rt !! k = Some mk ->
  Wayes.run_middlewares (take k (Wayes.middlewares rt)) (Ctx.NewCtx (Wayes.validator rt) w r) = (ck, None) ->
  mk ck = (c', Some err) ->
  Wayes.handler_steps rt h w r = (Wayes.Middleware <$> seq 0 (S k)).
Proof.
  intros Hk Htake Hfail. unfold Wayes.handler_steps.
  pose proof (steps_middlewares_run 0 (Wayes.middlewares rt) (Ctx.NewCtx (Wayes.validator rt) w r)) as Hout.
  destruct (steps_middlewares_failure 0 _ _ _ _ _ _ _ Hk Htake Hfail) as [Hrun Htr].
  destruct (Wayes.steps_middlewares 0 _ _) as [tr out]. simpl in *.
  rewrite Hout, Hrun. exact Htr.
Qed.

Lemma Terminal_not_Middleware (i n : nat) :
  Wayes.Terminal ∉ (Wayes.Middleware <$> seq i n : list Wayes.step).
Proof.
  intros Hin. apply list_elem_of_fmap in Hin as (j & [=] & _).
Qed.

(** C3: one dispatch calls the middleware in the order of the list.  If the
    middleware at index [i] is the first to return an error, the calls made
    are exactly those of indices [0..i]: no later middleware and no terminal
    handler, and the response is the error reply built from the context that
    middleware left.  The terminal handler is called exactly when the whole
    list returned success, after all of its [n] entries, and on the context
    the last one left. *)
Theorem dispatch_order_and_short_circuit (rt : Wayes.wayes) (h : Wayes.Handler)
    (w : ResponseWriter) (r : http.Request) :
  let ms := Wayes.middlewares rt in
  let c0 := Ctx.NewCtx (Wayes.validator rt) w r in
  let calls := Wayes.handler_steps rt h w r in
  (exists n, (n <= length ms)%nat
             /\ (calls = (Wayes.Middleware <$> seq 0 n)
                 \/ n = length ms /\ calls = (Wayes.Middleware <$> seq 0 n) ++ [Wayes.Terminal]))
  /\ (forall i mi ci c' err,
        ms !! i = Some mi ->
        Wayes.run_middlewares (take i ms) c0 = (ci, None) ->
        mi ci = (c', Some err) ->
        calls = (Wayes.Middleware <$> seq 0 (S i))
        /\ (Wayes.Terminal ∉ calls)
        /\ (forall j, (i < j)%nat -> Wayes.Middleware j ∉ calls)
        /\ Wayes.handler rt h w r =
             http_Error (Ctx.Response c') (Error err) http.StatusInternalServerError)
  /\ (Wayes.Terminal ∈ calls <-> exists cn, Wayes.run_middlewares ms c0 = (cn, None))
  /\ (forall cn,
        Wayes.run_middlewares ms c0 = (cn, None) ->
        calls = (Wayes.Middleware <$> seq 0 (length ms)) ++ [Wayes.Terminal]
        /\ Wayes.handler rt h w r =
             match h cn with
             | (c, Some err) =>
                 http_Error (Ctx.Response c) (Error err) http.StatusInternalServerError
             | (c, None) => Ctx.Response c
             end).
Proof.
  intros ms c0 calls.
  assert (forall i mi ci c' err,
             ms !! i = Some mi ->
             Wayes.run_middlewares (take i ms) c0 = (ci, None) ->
             mi ci = (c', Some err) ->
             calls = (Wayes.Middleware <$> seq 0 (S i))
             /\ Wayes.handler rt h w r =
                  http_Error (Ctx.Response c') (Error err) http.StatusInternalServerError)
    as Hfailure.
  { intros i mi ci c' err Hi Htake Hfail. split.
    - exact (handler_steps_failure rt h w r i mi ci c' err Hi Htake Hfail).
    - destruct (steps_middlewares_failure 0 _ _ _ _ _ _ _ Hi Htake Hfail) as [Hrun _].
      unfold Wayes.handler. fold ms c0. by rewrite Hrun. }
  assert (forall cn, Wayes.run_middlewares ms c0 = (cn, None) ->
                     calls = (Wayes.Middleware <$> seq 0 (length ms)) ++ [Wayes.Terminal])
    as Hsuccess.
  { intros cn Hrun. exact (handler_steps_success rt h w r cn Hrun). }
  split; [| split; [| split]].
  - destruct (Wayes.run_middlewares ms c0) as [cn [err|]] eqn:Hrun.
    + destruct (run_middlewares_failed _ _ _ _ Hrun) as (k & mk & ck & Hk & Htake & Hfail).
      exists (S k). split.
      * apply lookup_lt_Some in Hk. exact Hk.
      * left. by apply (Hfailure k mk ck cn err).
    + exists (length ms). split; [lia |]. right. split; [done |]. by apply (Hsuccess cn).
  - intros i mi ci c' err Hi Htake Hfail.
    destruct (Hfailure i mi ci c' err Hi Htake Hfail) as [Hcalls Hresp].
    split; [exact Hcalls |]. split; [| split; [| exact Hresp]].
    + rewrite Hcalls. apply Terminal_not_Middleware.
    + intros j Hj. rewrite Hcalls. intros Hin.
      apply list_elem_of_fmap in Hin as (j' & [= <-] & Hin).
      apply elem_of_seq in Hin. lia.
  - split.
    + intros Hin. destruct (Wayes.run_middlewares ms c0) as [cn [err|]] eqn:Hrun.
      * destruct (run_middlewares_failed _ _ _ _ Hrun) as (k & mk & ck & Hk & Htake & Hfail).
        destruct (Hfailure k mk ck cn err Hk Htake Hfail) as [Hcalls _].
        rewrite Hcalls in Hin. by apply Terminal_not_Middleware in Hin.
      * by exists cn.
    + intros [cn Hrun]. rewrite (Hsuccess cn Hrun).
      apply elem_of_app. right. apply list_elem_of_here.
  - intros cn Hrun. split; [by apply (Hsuccess cn) |].
    unfold Wayes.handler. fold ms c0. rewrite Hrun. by destruct (h cn) as [c [err|]].
Qed.

Lemma http_Error_response (w : ResponseWriter) (msg : string) (code : Z) :
  httptest.wroteHeader (http_Error w msg code) = true
  /\ httptest.Code (http_Error w msg code) =
       (if httptest.wroteHeader w then httptest.Code w else code)
  /\ httptest.Body (http_Error w msg code) = httptest.Body w +:+ msg +:+ newline.
Proof.
  unfold http_Error, httptest.Write, httptest.WriteHeader. simpl.
  destruct (httptest.wroteHeader w) eqn:Hw; simpl; rewrite ?Hw; simpl; by repeat split.
Qed.

(** X2: [SendError] on a response with no status line yet, under a stored
    status from 200 to 999, writes the stored status as the status line and
    hands the error back as it is; it writes no body and leaves the headers,
    the request and the stored status alone. *)
Lemma SendError_writes_status (err : error) (c : Ctx.ctx) :
  httptest.wroteHeader (Ctx.response c) = false ->
  200 <= Ctx.status c <= 999 ->
  let c' := (Ctx.SendError err c).1 in
  (Ctx.SendError err c).2 = Some err
  /\ httptest.wroteHeader (Ctx.response c') = true
  /\ httptest.Code (Ctx.response c') = Ctx.status c
  /\ httptest.Body (Ctx.response c') = httptest.Body (Ctx.response c)
  /\ httptest.HeaderMap (Ctx.response c') = httptest.HeaderMap (Ctx.response c)
  /\ Ctx.request c' = Ctx.request c
  /\ Ctx.status c' = Ctx.status c.
Proof.
  intros Hw _. unfold Ctx.SendError, httptest.WriteHeader. simpl. rewrite Hw. by repeat split.
Qed.

(** C1, as the code has it: when a middleware or the terminal handler
    returns an error, the dispatch replies with [http.Error] at 500 on the
    response the failing call left and ends.  The status line is therefore
    the one already written during the chain if there is one (as
    [SendError] does with the stored status), and 500 otherwise, whatever
    status the context stores; the body gains the error's message and a
    line feed. *)
Theorem handler_error_response (rt : Wayes.wayes) (h : Wayes.Handler)
    (w : ResponseWriter) (r : http.Request) (c' : Ctx.ctx) (err : error) :
  let ms := Wayes.middlewares rt in
  let c0 := Ctx.NewCtx (Wayes.validator rt) w r in
  Wayes.run_middlewares ms c0 = (c', Some err)
  \/ (exists cn, Wayes.run_middlewares ms c0 = (cn, None) /\ h cn = (c', Some err)) ->
  let w' := Wayes.handler rt h w r in
  w' = http_Error (Ctx.Response c') (Error err) 500
  /\ httptest.wroteHeader w' = true
  /\ httptest.Code w' =
       (if httptest.wroteHeader (Ctx.response c') then httptest.Code (Ctx.response c') else 500)
  /\ httptest.Body w' = httptest.Body (Ctx.response c') +:+ Error err +:+ newline.
Proof.
  intros ms c0 Hfail w'.
  assert (w' = http_Error (Ctx.Response c') (Error err) 500) as ->.
  { subst w'. unfold Wayes.handler. fold ms c0.
    destruct Hfail as [Hrun | (cn & Hrun & Hh)]; rewrite Hrun; [reflexivity |].
    by rewrite Hh. }
  split; [reflexivity |]. apply http_Error_response.
Qed.

End DispatchProperties.

(** * Properties of registration: [Use], [Group], [Combine] *)

Section RegistrationProperties.
Context {go : Collaborators}.

Lemma record_wayes_eta (w : Wayes.wayes) :
  {| Wayes.validator := Wayes.validator w; Wayes.mux := Wayes.mux w;
     Wayes.middlewares := Wayes.middlewares w |} = w.
Proof. by destruct w. Qed.

(** [Use] on a router that exists appends the handlers in call order and
    changes nothing else. *)
Lemma Use_spec (rt : Wayes.loc) (handlers : list Wayes.Handler) (s : Wayes.Store)
    (w : Wayes.wayes) :
  Wayes.routers s !! rt = Some w ->
  Wayes.Use rt handlers s =
    Ok (tt, {| Wayes.routers :=
                 <[rt := {| Wayes.validator := Wayes.validator w;
                            Wayes.mux := Wayes.mux w;
                            Wayes.middlewares := Wayes.middlewares w ++ handlers |}]>
                   (Wayes.routers s);
               Wayes.muxes := Wayes.muxes s |}).
Proof.
  revert s w. induction handlers as [| h handlers IH]; intros s w Hrt; simpl.
  - unfold Wayes.ret. rewrite app_nil_r, record_wayes_eta, (insert_id _ _ _ Hrt).
    by destruct s.
  - unfold Wayes.bind, Wayes.appendMiddleware, Wayes.bind, Wayes.deref. rewrite Hrt.
    erewrite IH by (simpl; apply lookup_insert_eq). simpl.
    by rewrite insert_insert_eq, <- app_assoc.
Qed.

Lemma Use_Ok (rt : Wayes.loc) (handlers : list Wayes.Handler) (s s' : Wayes.Store)
    (w : Wayes.wayes) :
  Wayes.routers s !! rt = Some w ->
  Wayes.Use rt handlers s = Ok (tt, s') ->
  Wayes.routers s' =
    <[rt := {| Wayes.validator := Wayes.validator w;
               Wayes.mux := Wayes.mux w;
               Wayes.middlewares := Wayes.middlewares w ++ handlers |}]> (Wayes.routers s)
  /\ Wayes.muxes s' = Wayes.muxes s.
Proof.
  intros Hrt. rewrite (Use_spec _ _ _ _ Hrt). by intros [= <-].
Qed.

Lemma Use_total (rt : Wayes.loc) (handlers : list Wayes.Handler) (s : Wayes.Store) :
  is_Some (Wayes.routers s !! rt) -> exists s', Wayes.Use rt handlers s = Ok (tt, s').
Proof.
  intros [w Hrt]. rewrite (Use_spec _ _ _ _ Hrt). by eexists.
Qed.

(** What a successful [Group] leaves in the store: the parent as it was, and
    a new router at a location of its own, with the parent's validator and a
    list of middleware equal to the parent's. *)
Lemma Group_Ok (rt : Wayes.loc) (path : string) (s s' : Wayes.Store) (g : Wayes.loc) :
  Wayes.Group rt path s = Ok (g, s') ->
  exists parent gm,
    Wayes.routers s !! rt = Some parent
    /\ g <> rt
    /\ Wayes.routers s !! g = None
    /\ Wayes.routers s' =
         <[g := {| Wayes.validator := Wayes.validator parent;
                   Wayes.mux := gm;
                   Wayes.middlewares := Wayes.middlewares parent |}]> (Wayes.routers s).
Proof.
  unfold Wayes.Group, Wayes.bind, Wayes.deref.
  destruct (Wayes.routers s !! rt) as [parent|] eqn:Hrt; [| intros [=]].
  unfold Wayes.New, Wayes.bind, Wayes.NewServeMux. simpl.
  set (gm := fresh (dom (Wayes.muxes s))).
  set (g0 := fresh (dom (Wayes.routers s))).
  assert (Wayes.routers s !! g0 = None) as Hfresh.
  { apply not_elem_of_dom. apply is_fresh. }
  assert (g0 <> rt) as Hne by congruence.
  erewrite Use_spec by (simpl; apply lookup_insert_eq). simpl.
  unfold Wayes.Mux, Wayes.bind, Wayes.deref, Wayes.ret. simpl.
  rewrite lookup_insert_eq. simpl.
  unfold Wayes.Handle. simpl.
  destruct (_ !! Wayes.mux parent) as [entries|]; [| intros [=]].
  destruct (negb _); [intros [=] |].
  destruct (existsb _ entries); [intros [=] |].
  intros [= <- <-]. exists parent, gm. simpl.
  rewrite insert_insert_eq. simpl. done.
Qed.

(** The calls of a dispatch are an initial segment of: the middleware by
    index, then the terminal handler. *)
Lemma handler_steps_shape (rt : Wayes.wayes) (h : Wayes.Handler)
    (w : ResponseWriter) (r : http.Request) :
  exists n,
    (n <= length (Wayes.middlewares rt))%nat
    /\ (Wayes.handler_steps rt h w r = (Wayes.Middleware <$> seq 0 n)
        \/ n = length (Wayes.middlewares rt)
           /\ Wayes.handler_steps rt h w r = (Wayes.Middleware <$> seq 0 n) ++ [Wayes.Terminal]).
Proof.
  destruct (Wayes.run_middlewares (Wayes.middlewares rt) (Ctx.NewCtx (Wayes.validator rt) w r))
    as [cn [err|]] eqn:Hrun.
  - destruct (run_middlewares_failed _ _ _ _ Hrun) as (k & mk & ck & Hk & Htake & Hfail).
    exists (S k). split.
    + apply lookup_lt_Some in Hk. exact Hk.
    + left. exact (handler_steps_failure rt h w r k mk ck cn err Hk Htake Hfail).
  - exists (length (Wayes.middlewares rt)). split; [lia |]. right. split; [done |].
    exact (handler_steps_success rt h w r cn Hrun).
Qed.

(** C5: a successful [Group] gives the new router a list of middleware of
    its own, equal to the parent's list at that moment.  A later [Use] on
    the parent succeeds, extends the parent's list, and leaves the group's
    router as it was, so every dispatch through the group is unchanged. *)
Theorem Group_middlewares_snapshot (rt : Wayes.loc) (path : string)
    (s s1 : Wayes.Store) (g : Wayes.loc) :
  Wayes.Group rt path s = Ok (g, s1) ->
  exists parent group,
    Wayes.routers s !! rt = Some parent
    /\ Wayes.routers s1 !! g = Some group
    /\ Wayes.middlewares group = Wayes.middlewares parent
    /\ forall handlers,
         exists s2 parent',
           Wayes.Use rt handlers s1 = Ok (tt, s2)
           /\ Wayes.routers s2 !! rt = Some parent'
           /\ Wayes.middlewares parent' = Wayes.middlewares parent ++ handlers
           /\ Wayes.routers s2 !! g = Some group
           /\ forall h w r, Wayes.dispatch s2 g h w r = Wayes.dispatch s1 g h w r.
Proof.
  intros HG. destruct (Group_Ok _ _ _ _ _ HG) as (parent & gm & Hrt & Hne & Hfresh & Hs1).
  eexists parent, _. split; [exact Hrt |].
  split; [rewrite Hs1; apply lookup_insert_eq |].
  split; [reflexivity |].
  intros handlers.
  assert (Wayes.routers s1 !! rt = Some parent) as Hrt1.
  { rewrite Hs1. by rewrite lookup_insert_ne. }
  destruct (Use_total rt handlers s1) as [s2 HU]; [by eexists |].
  destruct (Use_Ok _ _ _ _ _ Hrt1 HU) as [Hs2 _].
  assert (Wayes.routers s2 !! g = Wayes.routers s1 !! g) as Hg.
  { rewrite Hs2. by rewrite lookup_insert_ne. }
  eexists s2, _. split; [exact HU |].
  split; [rewrite Hs2; apply lookup_insert_eq |].
  split; [reflexivity |].
  split; [rewrite Hg, Hs1; apply lookup_insert_eq |].
  intros h w r. unfold Wayes.dispatch. by rewrite Hg.
Qed.

(** C6: a group made from a router whose list is [a; b], and given more
    middleware [gs] of its own, has the parent's validator and the list
    [a; b] followed by [gs].  A request dispatched through it is answered
    by running [a] on the fresh context, [b] on the context [a] left, then
    [gs], then the terminal handler [h], each only if the one before it
    succeeded, and by the error reply of the first that failed.  The calls
    made are [a] alone when [a] fails; [a] and [b] when [b] fails; [a],
    [b] and the first [k + 1] of [gs] when the one at index [k] of [gs]
    fails; and [a], [b], all of [gs] and then [h] when none fails. *)
Theorem Group_runs_inherited_middlewares_first (rt : Wayes.loc) (path : string)
    (s s1 : Wayes.Store) (g : Wayes.loc) (parent : Wayes.wayes)
    (a b : Wayes.Handler) (gs : list Wayes.Handler) :
  Wayes.routers s !! rt = Some parent ->
  Wayes.middlewares parent = [a; b] ->
  Wayes.Group rt path s = Ok (g, s1) ->
  exists s2 group,
    Wayes.Use g gs s1 = Ok (tt, s2)
    /\ Wayes.routers s2 !! g = Some group
    /\ Wayes.validator group = Wayes.validator parent
    /\ Wayes.middlewares group = a :: b :: gs
    /\ forall h w r,
         let c0 := Ctx.NewCtx (Wayes.validator parent) w r in
         let calls := Wayes.handler_steps group h w r in
         Wayes.dispatch s2 g h w r = Some (Wayes.handler group h w r)
         /\ Wayes.handler group h w r =
              match a c0 with
              | (c1, Some err) => http_Error (Ctx.Response c1) (Error err) 500
              | (c1, None) =>
                  match b c1 with
                  | (c2, Some err) => http_Error (Ctx.Response c2) (Error err) 500
                  | (c2, None) =>
                      match Wayes.run_middlewares gs c2 with
                      | (c3, Some err) => http_Error (Ctx.Response c3) (Error err) 500
                      | (c3, None) =>
                          match h c3 with
                          | (c4, Some err) => http_Error (Ctx.Response c4) (Error err) 500
                          | (c4, None) => Ctx.Response c4
                          end
                      end
                  end
              end
         /\ (forall c1 err,
               a c0 = (c1, Some err) ->
               calls = [Wayes.Middleware 0])
         /\ (forall c1 c2 err,
               a c0 = (c1, None) ->
               b c1 = (c2, Some err) ->
               calls = [Wayes.Middleware 0; Wayes.Middleware 1])
         /\ (forall c1 c2 k mk ck c3 err,
               a c0 = (c1, None) ->
               b c1 = (c2, None) ->
               gs !! k = Some mk ->
               Wayes.run_middlewares (take k gs) c2 = (ck, None) ->
               mk ck = (c3, Some err) ->
               calls = (Wayes.Middleware <$> seq 0 (3 + k))
               /\ Wayes.handler group h w r = http_Error (Ctx.Response c3) (Error err) 500)
         /\ (forall c1 c2 c3,
               a c0 = (c1, None) ->
               b c1 = (c2, None) ->
               Wayes.run_middlewares gs c2 = (c3, None) ->
               calls = (Wayes.Middleware <$> seq 0 (2 + length gs)) ++ [Wayes.Terminal]
               /\ Wayes.handler group h w r =
                    match h c3 with
                    | (c4, Some err) => http_Error (Ctx.Response c4) (Error err) 500
                    | (c4, None) => Ctx.Response c4
                    end)
         /\ (forall c,
               Wayes.run_middlewares (Wayes.middlewares group) c =
                 match a c with
                 | (c1, Some err) => (c1, Some err)
                 | (c1, None) =>
                     match b c1 with
                     | (c2, Some err) => (c2, Some err)
                     | (c2, None) => Wayes.run_middlewares gs c2
                     end
                 end)
         /\ (exists n,
               (n <= 2 + length gs)%nat
               /\ (calls = (Wayes.Middleware <$> seq 0 n)
                   \/ n = (2 + length gs)%nat
                      /\ calls = (Wayes.Middleware <$> seq 0 n) ++ [Wayes.Terminal])).
Proof.
  intros Hparent Hab HG.
  destruct (Group_Ok _ _ _ _ _ HG) as (parent' & gm & Hrt & Hne & Hfresh & Hs1).
  rewrite Hparent in Hrt. injection Hrt as <-.
  assert (Wayes.routers s1 !! g =
            Some {| Wayes.validator := Wayes.validator parent; Wayes.mux := gm;
                    Wayes.middlewares := Wayes.middlewares parent |}) as Hg1.
  { rewrite Hs1. apply lookup_insert_eq. }
  destruct (Use_total g gs s1) as [s2 HU]; [by eexists |].
  destruct (Use_Ok _ _ _ _ _ Hg1 HU) as [Hs2 _]. simpl in Hs2. rewrite Hab in Hs2. simpl in Hs2.
  set (group := {| Wayes.validator := Wayes.validator parent; Wayes.mux := gm;
                   Wayes.middlewares := a :: b :: gs |}) in *.
  exists s2, group. split; [exact HU |].
  split; [rewrite Hs2; apply lookup_insert_eq |].
  split; [reflexivity |]. split; [reflexivity |].
  intros h w r c0 calls.
  assert (Wayes.handler group h w r =
            match a c0 with
            | (c1, Some err) => http_Error (Ctx.Response c1) (Error err) 500
            | (c1, None) =>
                match b c1 with
                | (c2, Some err) => http_Error (Ctx.Response c2) (Error err) 500
                | (c2, None) =>
                    match Wayes.run_middlewares gs c2 with
                    | (c3, Some err) => http_Error (Ctx.Response c3) (Error err) 500
                    | (c3, None) =>
                        match h c3 with
                        | (c4, Some err) => http_Error (Ctx.Response c4) (Error err) 500
                        | (c4, None) => Ctx.Response c4
                        end
                    end
                end
            end) as Hhandler.
  { unfold Wayes.handler. simpl. fold c0.
    destruct (a c0) as [c1 [e|]]; [reflexivity |].
    by destruct (b c1) as [c2 [e|]]. }
  split; [unfold Wayes.dispatch; by rewrite Hs2, lookup_insert_eq |].
  split; [exact Hhandler |].
  split; [| split; [| split; [| split; [| split]]]].
  - intros c1 err Ha.
    exact (handler_steps_failure group h w r 0 a c0 c1 err eq_refl eq_refl Ha).
  - intros c1 c2 err Ha Hb.
    refine (handler_steps_failure group h w r 1 b c1 c2 err eq_refl _ Hb).
    simpl. fold c0. by rewrite Ha.
  - intros c1 c2 k mk ck c3 err Ha Hb Hk Htake Hfail. split.
    + refine (handler_steps_failure group h w r (2 + k) mk ck c3 err Hk _ Hfail).
      simpl. fold c0. by rewrite Ha, Hb.
    + rewrite Hhandler, Ha, Hb.
      destruct (steps_middlewares_failure 0 _ _ _ _ _ _ _ Hk Htake Hfail) as [-> _].
      reflexivity.
  - intros c1 c2 c3 Ha Hb Hgs. split.
    + refine (handler_steps_success group h w r c3 _).
      simpl. fold c0. by rewrite Ha, Hb.
    + by rewrite Hhandler, Ha, Hb, Hgs.
  - intros c. reflexivity.
  - exact (handler_steps_shape group h w r).
Qed.

Lemma result_panics {A : Type} (x : result A) :
  match x with Panic _ => True | Ok _ => False end -> exists msg, x = Panic msg.
Proof. destruct x as [a | msg]; [done | by eexists]. Qed.

(** [Handle] never succeeds on a mux that already has the same pattern. *)
Lemma Handle_registered_pattern (m : Wayes.loc) (pattern : string)
    (h h' : Wayes.muxHandler) (entries : Wayes.ServeMux) (s : Wayes.Store) :
  Wayes.muxes s !! m = Some entries ->
  (pattern, h') ∈ entries ->
  exists msg, Wayes.Handle m pattern h s = Panic msg.
Proof.
  intros Hm Hin. apply result_panics. unfold Wayes.Handle. rewrite Hm.
  destruct (negb (pattern_valid pattern)); [done |].
  assert (existsb (fun e => Wayes.conflictsWith pattern e.1) entries = true) as ->; [| done].
  apply existsb_exists. exists (pattern, h'). split.
  - by apply list_elem_of_In.
  - unfold Wayes.conflictsWith. simpl. by rewrite String.eqb_refl.
Qed.

Lemma Handle_Ok (m : Wayes.loc) (pattern : string) (h : Wayes.muxHandler)
    (s s' : Wayes.Store) :
  Wayes.Handle m pattern h s = Ok (tt, s') ->
  exists entries,
    Wayes.muxes s !! m = Some entries
    /\ pattern_valid pattern = true
    /\ existsb (fun e => Wayes.conflictsWith pattern e.1) entries = false
    /\ Wayes.routers s' = Wayes.routers s
    /\ Wayes.muxes s' = <[m := entries ++ [(pattern, h)]]> (Wayes.muxes s).
Proof.
  unfold Wayes.Handle.
  destruct (Wayes.muxes s !! m) as [entries|]; [| intros [=]].
  destruct (pattern_valid pattern); simpl; [| intros [=]].
  destruct (existsb _ entries) eqn:Hc; [intros [=] |].
  intros [= <-]. exists entries. by repeat split.
Qed.

(** C2, where the code departs from it: [Combine] with two tables or more
    never returns.  Mounting the first table registers the pattern ["/"] on
    the receiver's mux; mounting the second registers ["/"] again on the
    same mux, which [Handle] refuses with a panic (and if the first
    registration was refused, the call has panicked already). *)
Theorem Combine_second_table_panics (rt : Wayes.loc) (t1 t2 : Wayes.loc)
    (ts : list Wayes.loc) (s : Wayes.Store) :
  exists msg, Wayes.Combine rt (t1 :: t2 :: ts) s = Panic msg.
Proof.
  apply result_panics.
  unfold Wayes.Combine. simpl. unfold Wayes.bind at 1 2.
  unfold Wayes.Mux, Wayes.bind at 1, Wayes.deref, Wayes.ret.
  destruct (Wayes.routers s !! rt) as [w|] eqn:Hrt; [| done].
  unfold Wayes.bind at 1.
  destruct (Wayes.Handle (Wayes.mux w) "/" (Wayes.MuxHandler t1) s) as [[[] s1]|msg] eqn:H1;
    [| done].
  destruct (Handle_Ok _ _ _ _ _ H1) as (entries & Hm & _ & _ & Hr1 & Hm1).
  unfold Wayes.bind at 1 2. rewrite Hr1, Hrt.
  unfold Wayes.bind at 1.
  destruct (Handle_registered_pattern (Wayes.mux w) "/" (Wayes.MuxHandler t2)
              (Wayes.MuxHandler t1) (entries ++ [("/", Wayes.MuxHandler t1)]) s1)
    as [msg Hmsg].
  - rewrite Hm1. apply lookup_insert_eq.
  - set_solver.
  - by rewrite Hmsg.
Qed.

(** [Combine] with one table, on a receiver none of whose patterns
    conflicts with ["/"], mounts the table under ["/"] after the receiver's
    registrations and returns the receiver's mux. *)
Lemma Combine_single_table (rt t : Wayes.loc) (s : Wayes.Store)
    (w : Wayes.wayes) (entries : Wayes.ServeMux) :
  Wayes.routers s !! rt = Some w ->
  Wayes.muxes s !! Wayes.mux w = Some entries ->
  pattern_valid "/" = true ->
  existsb (fun e => Wayes.conflictsWith "/" e.1) entries = false ->
  Wayes.Combine rt [t] s =
    Ok (Wayes.mux w,
        {| Wayes.routers := Wayes.routers s;
           Wayes.muxes := <[Wayes.mux w := entries ++ [("/", Wayes.MuxHandler t)]]> (Wayes.muxes s) |}).
Proof.
  intros Hrt Hm Hvalid Hfree.
  unfold Wayes.Combine, Wayes.Combine_loop, Wayes.bind, Wayes.Mux, Wayes.bind,
    Wayes.deref, Wayes.ret, Wayes.Handle.
  rewrite Hrt, Hm, Hvalid, Hfree. simpl. by rewrite Hrt.
Qed.

(** The mux selects the catch-all registration for a request that none of
    the registrations before it matches. *)
Lemma findHandler_fallback (entries : Wayes.ServeMux) (h : Wayes.muxHandler) (r : http.Request) :
  (forall e, e ∈ entries -> Wayes.matches e.1 r = false) ->
  Wayes.findHandler (entries ++ [("/", h)]) r = Some ("/", h).
Proof.
  intros Hnone. unfold Wayes.findHandler. rewrite foldl_app. simpl.
  assert (foldl (fun best e =>
                   if Wayes.matches e.1 r then
                     match best with
                     | None => Some e
                     | Some b => if more_specific e.1 b.1 then Some e else best
                     end
                   else best) None entries = None) as ->.
  { induction entries as [| e entries IH]; simpl; [reflexivity |].
    rewrite (Hnone e); [| set_solver]. apply IH. intros e' He'. apply Hnone. set_solver. }
  unfold Wayes.matches. simpl. reflexivity.
Qed.

(** X1: after a [Combine] with one table that returned, the mux returned is
    the receiver's.  A request whose path is clean, that none of the
    receiver's own registrations matches, and that none of them matches
    with a slash added to its path (so that the mux has no redirect to
    answer with), is served by the combined table, with the same request
    and the same response sink. *)
Lemma Combine_serves_combined_table (rt t : Wayes.loc) (s s' : Wayes.Store) (m : Wayes.loc)
    (w : Wayes.wayes) (entries : Wayes.ServeMux)
    (fuel : nat) (rw : ResponseWriter) (r : http.Request) :
  Wayes.routers s !! rt = Some w ->
  Wayes.muxes s !! Wayes.mux w = Some entries ->
  Wayes.Combine rt [t] s = Ok (m, s') ->
  isCleanPath (http.Path r) = true ->
  (forall e, e ∈ entries -> Wayes.matches e.1 r = false) ->
  (forall e, e ∈ entries ->
     Wayes.matches e.1 (http.withPath (http.Path r +:+ "/") r) = false) ->
  m = Wayes.mux w
  /\ Wayes.ServeHTTP (S fuel) s' m rw r = Wayes.ServeHTTP fuel s' t rw r.
Proof.
  intros Hrt Hm HC _ Hnone _.
  assert (pattern_valid "/" = true
          /\ existsb (fun e => Wayes.conflictsWith "/" e.1) entries = false) as [Hvalid Hfree].
  { revert HC.
    unfold Wayes.Combine, Wayes.Combine_loop, Wayes.bind, Wayes.Mux, Wayes.bind,
      Wayes.deref, Wayes.ret, Wayes.Handle.
    rewrite Hrt, Hm.
    destruct (pattern_valid "/"); simpl; [| intros [=]].
    destruct (existsb _ entries); [intros [=] | done]. }
  rewrite (Combine_single_table rt t s w entries Hrt Hm Hvalid Hfree) in HC.
  injection HC as <- <-. split; [reflexivity |].
  simpl. rewrite lookup_insert_eq.
  by rewrite (findHandler_fallback entries (Wayes.MuxHandler t) r Hnone).
Qed.

End RegistrationProperties.

(** * The properties at concrete inputs *)

Section Instances.
Import Fixture.

(** The header test of the package: a value set is read back, an unset key
    gives the default or the empty string. *)
Lemma Get_reads_outbound_headers_witness :
  Ctx.Get "test" [] (Ctx.Set_ "test" "123" (context None "GET" "")) = "123"
  /\ Ctx.Get "undefined" ["123"] (context None "GET" "") = "123"
  /\ Ctx.Get "undefined" [] (context None "GET" "") = "".
Proof.
  destruct (@Get_reads_outbound_headers stdlib (context None "GET" "") "test" [])
    as (_ & Hset & _).
  destruct (@Get_reads_outbound_headers stdlib (context None "GET" "") "undefined" [])
    as (_ & _ & Habsent).
  destruct (Habsent eq_refl) as [Hempty Hdefault].
  split; [apply Hset; discriminate |].
  split; [apply Hdefault | apply Hempty].
Defined.

(** An empty body on POST is [errEmptyBody], with status 400. *)
Lemma Decode_error_taxonomy_witness :
  (@Ctx.Decode stdlib "" (context None "POST" "")).2 = Some errEmptyBody
  /\ Ctx.status (@Ctx.Decode stdlib "" (context None "POST" "")).1.1 = 400.
Proof.
  destruct (@Decode_error_taxonomy stdlib (context None "POST" "") "" "" "" (Some io_EOF) eq_refl)
    as (Hempty & _ & _ & Hstatus & _).
  split.
  - apply Hempty. split; [reflexivity | apply list_elem_of_here].
  - apply Hstatus. discriminate.
Defined.

(** A rejecting validator on a decodable body: status 400 and its error. *)
Lemma Validate_after_Decode_witness :
  (@Ctx.Validate stdlib "" (context (Some rejectAll) "POST" "{}")).2 = Some (errorsNew "test error")
  /\ Ctx.status (@Ctx.Validate stdlib "" (context (Some rejectAll) "POST" "{}")).1.1 = 400.
Proof.
  destruct (@Validate_after_Decode stdlib (context (Some rejectAll) "POST" "{}") ""
              (@Ctx.Decode stdlib "" (context (Some rejectAll) "POST" "{}")).1.1 "{}" None eq_refl)
    as (_ & Hreject & _).
  destruct (Hreject rejectAll (errorsNew "test error") eq_refl eq_refl eq_refl) as [Hv Hs].
  split; [by rewrite Hv | exact Hs].
Defined.

(** The same call leaves the decoded document in the target. *)
Lemma Validate_rejection_keeps_decoded_target_witness :
  (@Ctx.Validate stdlib "" (context (Some rejectAll) "POST" "{}")).1.2 = "{}"
  /\ (@Ctx.Validate stdlib "" (context (Some rejectAll) "POST" "{}")).2 = Some (errorsNew "test error").
Proof.
  destruct (@Validate_rejection_keeps_decoded_target stdlib
              (context (Some rejectAll) "POST" "{}") "" "" "{}" eq_refl)
    as [Hreject _].
  exact (Hreject rejectAll (errorsNew "test error") eq_refl eq_refl).
Defined.

(** [Status(204)] then [Write] of a message on a fresh response: 204 and an
    empty body. *)
Lemma Write_on_unwritten_response_witness :
  httptest.Code (Ctx.response (Ctx.Write "Test write response"
                                 (Ctx.Status 204 (context None "OPTIONS" ""))).1) = 204
  /\ httptest.Body (Ctx.response (Ctx.Write "Test write response"
                                    (Ctx.Status 204 (context None "OPTIONS" ""))).1) = "".
Proof.
  assert (200 <= 204 <= 999) as Hrange by lia.
  assert (204 <> 304) as Hne by lia.
  destruct (@Write_on_unwritten_response stdlib (Ctx.Status 204 (context None "OPTIONS" ""))
              "Test write response" eq_refl Hrange Hne)
    as (_ & _ & _ & Hcode & _ & Hbody).
  split; [exact Hcode | exact (Hbody eq_refl)].
Defined.

(** C8 as stated fails once the status line is out: after a first [Write]
    at 200, [Status(404)] and a second [Write] leave the status line at 200,
    not at the stored 404, and the body holds both messages; and with
    [Status(204)] the second [Write] leaves a body that is not empty. *)
Lemma Write_after_status_line_counterexample :
  let c := Ctx.Status 404 (Ctx.Write "a" (context None "GET" "")).1 in
  let c204 := Ctx.Status 204 (Ctx.Write "a" (context None "GET" "")).1 in
  (Ctx.status c = 404
   /\ httptest.Code (Ctx.response (Ctx.Write "b" c).1) = 200
   /\ httptest.Code (Ctx.response (Ctx.Write "b" c).1) <> Ctx.status c
   /\ httptest.Body (Ctx.response (Ctx.Write "b" c).1) = "ab"
   /\ httptest.Body (Ctx.response (Ctx.Write "b" c).1) <> "b")
  /\ (Ctx.status c204 = 204
      /\ httptest.Code (Ctx.response (Ctx.Write "b" c204).1) = 200
      /\ httptest.Body (Ctx.response (Ctx.Write "b" c204).1) = "a"
      /\ httptest.Body (Ctx.response (Ctx.Write "b" c204).1) <> "").
Proof.
  simpl. repeat split; try reflexivity; discriminate.
Qed.

(** The second of three middleware fails: calls 0 and 1 only, and the reply
    carries what it sent. *)
Lemma dispatch_order_and_short_circuit_witness :
  Wayes.handler_steps (router [next; sendsError 403 "middleware error"; next])
    (writes "Test get response") httptest.NewRecorder (request "GET" "/test-get" "")
  = [Wayes.Middleware 0; Wayes.Middleware 1]
  /\ Wayes.Terminal ∉
       Wayes.handler_steps (router [next; sendsError 403 "middleware error"; next])
         (writes "Test get response") httptest.NewRecorder (request "GET" "/test-get" "").
Proof.
  destruct (@dispatch_order_and_short_circuit stdlib
              (router [next; sendsError 403 "middleware error"; next])
              (writes "Test get response") httptest.NewRecorder (request "GET" "/test-get" ""))
    as (_ & Hfail & _).
  destruct (Hfail 1%nat (sendsError 403 "middleware error")
              (Ctx.NewCtx None httptest.NewRecorder (request "GET" "/test-get" ""))
              (sendsError 403 "middleware error"
                 (Ctx.NewCtx None httptest.NewRecorder (request "GET" "/test-get" ""))).1
              (errorsNew "middleware error") eq_refl eq_refl eq_refl)
    as (Hcalls & Hterm & _).
  split; [exact Hcalls | exact Hterm].
Defined.

(** The middleware test of the package: [Status(403).SendError(err)] in a
    middleware gives a 403 reply with the message in the body. *)
Lemma handler_error_response_witness :
  httptest.Code (Wayes.handler (router [sendsError 403 "middleware error"])
                   (writes "Test get response") httptest.NewRecorder (request "GET" "/test-get" ""))
  = 403
  /\ httptest.Body (Wayes.handler (router [sendsError 403 "middleware error"])
                      (writes "Test get response") httptest.NewRecorder (request "GET" "/test-get" ""))
     = "middleware error" +:+ newline.
Proof.
  destruct (@handler_error_response stdlib (router [sendsError 403 "middleware error"])
              (writes "Test get response") httptest.NewRecorder (request "GET" "/test-get" "")
              (sendsError 403 "middleware error"
                 (Ctx.NewCtx None httptest.NewRecorder (request "GET" "/test-get" ""))).1
              (errorsNew "middleware error") (or_introl eq_refl))
    as (_ & _ & Hcode & Hbody).
  split; [exact Hcode | exact Hbody].
Defined.

(** C1 as stated fails when the failing handler only stores a status: after
    [ctx.Status(403)] and a returned error the context's status is 403, and
    the reply goes out at 500. *)
Lemma handler_status_counterexample :
  let h := setsStatusAndFails 403 "access denied" in
  let c0 := Ctx.NewCtx None httptest.NewRecorder (request "GET" "/test-get" "") in
  let w' := Wayes.handler (router []) h httptest.NewRecorder (request "GET" "/test-get" "") in
  (h c0).2 = Some (errorsNew "access denied")
  /\ Ctx.status (h c0).1 = 403
  /\ httptest.Code w' = 500
  /\ httptest.Code w' <> Ctx.status (h c0).1.
Proof.
  simpl. repeat split; try reflexivity; discriminate.
Qed.

(** A group of a router with two middleware, then [Use] on the parent. *)
Lemma Group_middlewares_snapshot_witness :
  exists parent group,
    Wayes.routers storeParent !! 0%nat = Some parent
    /\ Wayes.routers storeGroup !! 1%nat = Some group
    /\ Wayes.middlewares group = Wayes.middlewares parent
    /\ forall handlers,
         exists s2 parent',
           Wayes.Use 0%nat handlers storeGroup = Ok (tt, s2)
           /\ Wayes.routers s2 !! 0%nat = Some parent'
           /\ Wayes.middlewares parent' = Wayes.middlewares parent ++ handlers
           /\ Wayes.routers s2 !! 1%nat = Some group
           /\ forall h w r, Wayes.dispatch s2 1%nat h w r = Wayes.dispatch storeGroup 1%nat h w r.
Proof.
  exact (@Group_middlewares_snapshot stdlib 0%nat "/users" storeParent storeGroup 1%nat eq_refl).
Defined.

(** The same group with one middleware of its own, which refuses with 403:
    a request through the group calls the two inherited middleware, then
    the group's, and never the terminal handler. *)
Lemma Group_runs_inherited_middlewares_first_witness :
  exists s2 group,
    Wayes.Use 1%nat [sendsError 403 "access denied"] storeGroup = Ok (tt, s2)
    /\ Wayes.routers s2 !! 1%nat = Some group
    /\ Wayes.middlewares group = [next; next; sendsError 403 "access denied"]
    /\ Wayes.handler_steps group (writes "users") httptest.NewRecorder (request "GET" "/" "")
       = [Wayes.Middleware 0; Wayes.Middleware 1; Wayes.Middleware 2]
    /\ httptest.Code (Wayes.handler group (writes "users") httptest.NewRecorder
                        (request "GET" "/" "")) = 403.
Proof.
  destruct (@Group_runs_inherited_middlewares_first stdlib 0%nat "/users" storeParent storeGroup
              1%nat (router [next; next]) next next [sendsError 403 "access denied"]
              eq_refl eq_refl eq_refl)
    as (s2 & group & HU & Hg & _ & Hms & Hreq).
  exists s2, group. split; [exact HU |]. split; [exact Hg |]. split; [exact Hms |].
  destruct (Hreq (writes "users") httptest.NewRecorder (request "GET" "/" ""))
    as (_ & _ & _ & _ & Hgs & _).
  destruct (Hgs _ _ 0%nat _ _ _ _ eq_refl eq_refl eq_refl eq_refl eq_refl) as [Hcalls Hreply].
  split; [exact Hcalls |]. exact (f_equal httptest.Code Hreply).
Defined.

(** [ctx.Status(403).SendError(err)] on a fresh response writes 403. *)
Lemma SendError_writes_status_witness :
  (Ctx.SendError (errorsNew "access denied") (Ctx.Status 403 (context None "GET" ""))).2
  = Some (errorsNew "access denied")
  /\ httptest.Code (Ctx.response (Ctx.SendError (errorsNew "access denied")
                                    (Ctx.Status 403 (context None "GET" ""))).1) = 403.
Proof.
  assert (200 <= 403 <= 999) as Hrange by lia.
  destruct (@SendError_writes_status stdlib (errorsNew "access denied")
              (Ctx.Status 403 (context None "GET" "")) eq_refl Hrange)
    as (Herr & _ & Hcode & _).
  split; [exact Herr | exact Hcode].
Defined.

(** The [Combine] test of the package: after [rt.Combine(rt2.Mux())] a GET of
    [/v2/test-get] on [rt] is handed to the mux of [rt2] as it is, and gets
    the reply registered on the group of [rt2]. *)
Lemma Combine_serves_combined_table_witness :
  Wayes.ServeHTTP 4 storeCombined 0%nat httptest.NewRecorder (request "GET" "/v2/test-get" "")
  = Wayes.ServeHTTP 3 storeCombined 2%nat httptest.NewRecorder (request "GET" "/v2/test-get" "")
  /\ httptest.Body <$>
       Wayes.ServeHTTP 4 storeCombined 0%nat httptest.NewRecorder (request "GET" "/v2/test-get" "")
     = Some "response users version 2".
Proof.
  destruct (@Combine_serves_combined_table stdlib 0%nat 2%nat storeVersions storeCombined 0%nat
              (router []) [("/v1/", Wayes.StripPrefix "/v1" 1%nat)]
              3%nat httptest.NewRecorder (request "GET" "/v2/test-get" "")
              eq_refl eq_refl eq_refl eq_refl)
    as [_ Hserve].
  - intros e He. apply list_elem_of_singleton in He. rewrite He. reflexivity.
  - intros e He. apply list_elem_of_singleton in He. rewrite He. reflexivity.
  - split; [exact Hserve | reflexivity].
Defined.

(** [rt.Combine(rt2.Mux(), rt3.Mux())] on three fresh routers panics. *)
Example Combine_two_fresh_tables :
  Wayes.Combine 0%nat [1%nat; 2%nat] storeThree
  = Panic "pattern / conflicts with a registered pattern".
Proof. reflexivity. Qed.

End Instances.

(** * More of the request context: headers, bodies, output, locals *)

Section CtxFurther.
Context {go : Collaborators}.

(** X3: a header set to the empty string reads as an absent one: [Get]
    returns the default, or the empty string when none is given.  And the
    second of two [Set] on one key is the one that counts: the first leaves
    no trace in the context. *)
Theorem Set_empty_value_and_overwrite (c : Ctx.ctx) (key : string) :
  Ctx.Get key [] (Ctx.Set_ key "" c) = ""
  /\ (forall d ds, Ctx.Get key (d :: ds) (Ctx.Set_ key "" c) = d)
  /\ (forall v1 v2, Ctx.Set_ key v2 (Ctx.Set_ key v1 c) = Ctx.Set_ key v2 c).
Proof.
  split; [| split].
  - unfold Ctx.Get, Ctx.Set_. simpl. by rewrite Header_Get_Set.
  - intros d ds. unfold Ctx.Get, Ctx.Set_. simpl. by rewrite Header_Get_Set.
  - intros v1 v2. unfold Ctx.Set_, Ctx.withResponse, httptest.withHeaderMap, Header_Set. simpl.
    by rewrite insert_insert_eq.
Qed.

(** X4: headers are kept by canonical key.  After [Set(key, value)], a
    [Get] with any spelling of the same canonical key reads what a [Get]
    with [key] reads, and a [Get] with a key of another canonical form reads
    what it read before the [Set]. *)
Theorem Get_Set_by_canonical_key (c : Ctx.ctx) (key key' value : string)
    (defaultValue : list string) :
  (CanonicalHeaderKey key' = CanonicalHeaderKey key ->
   Ctx.Get key' defaultValue (Ctx.Set_ key value c)
   = Ctx.Get key defaultValue (Ctx.Set_ key value c))
  /\ (CanonicalHeaderKey key' <> CanonicalHeaderKey key ->
      Ctx.Get key' defaultValue (Ctx.Set_ key value c) = Ctx.Get key' defaultValue c).
Proof.
  split; intros Hkey; unfold Ctx.Get, Ctx.Set_, Header_Get, Header_Set; simpl.
  - by rewrite Hkey.
  - by rewrite lookup_insert_ne.
Qed.

(** X5: [Decode] and [Validate] report to their caller only.  Neither
    touches the response (headers, status line, body) or the validator; of
    the request they change the unread body alone, and [Validate] reads no
    more of it than its [Decode]; and after [Validate] the stored status is
    400 when it returned an error and what it was when it returned none. *)
Theorem Decode_Validate_leave_response (c : Ctx.ctx) (data : Data) :
  let d := (Ctx.Decode data c).1.1 in
  let v := (Ctx.Validate data c).1.1 in
  Ctx.response d = Ctx.response c
  /\ Ctx.response v = Ctx.response c
  /\ Ctx.validator v = Ctx.validator c
  /\ Ctx.request v = Ctx.request d
  /\ Ctx.request d = http.withBody (json_Decode (http.Body (Ctx.request c)) data).1.1 (Ctx.request c)
  /\ ((Ctx.Validate data c).2 = None -> Ctx.status v = Ctx.status c)
  /\ ((Ctx.Validate data c).2 <> None -> Ctx.status v = 400).
Proof.
  intros d v. subst d v. unfold Ctx.Validate.
  destruct (json_Decode (http.Body (Ctx.request c)) data) as [[rest data'] [e|]] eqn:Hdec.
  - rewrite (Decode_failure _ _ _ _ _ Hdec). simpl.
    repeat split; try reflexivity. intros [=].
  - rewrite (Decode_success _ _ _ _ Hdec). simpl.
    destruct (Ctx.validator c) as [val|] eqn:Hval; simpl.
    + destruct (val data') as [err|]; simpl; rewrite ?Hval;
        repeat split; try reflexivity; try done.
    + rewrite ?Hval. repeat split; try reflexivity; done.
Qed.

End CtxFurther.

Section OutputProperties.
Context {go : Collaborators} {enc : Encoders}.

Lemma Encode_response (data : Data) (c : Ctx.ctx) :
  Ctx.Encode data c =
    match json_Encode data with
    | inl text => (Ctx.withResponse (httptest.Write text (Ctx.response c)).1 c, None)
    | inr err => (c, Some err)
    end.
Proof. unfold Ctx.Encode. by destruct (json_Encode data). Qed.

(** X6: [Encode] by itself does not use the stored status.  On a response
    whose status line is not written yet, or is written with a code from
    200 to 999 that allows a body (neither 204 nor 304): when the document
    marshals, its bytes are appended to the body and no error is returned;
    a status line not yet written goes out as 200 whatever [Status] stored,
    one already written stays, and then the headers stay too; the stored
    status is not changed.  When marshalling fails, the error is returned
    and the context is untouched. *)
Theorem Encode_ignores_stored_status (c : Ctx.ctx) (data : Data) :
  (httptest.wroteHeader (Ctx.response c) = true ->
   200 <= httptest.Code (Ctx.response c) <= 999
   /\ httptest.Code (Ctx.response c) <> 204
   /\ httptest.Code (Ctx.response c) <> 304) ->
  match json_Encode data with
  | inl text =>
      let c' := (Ctx.Encode data c).1 in
      (Ctx.Encode data c).2 = None
      /\ httptest.Body (Ctx.response c') = httptest.Body (Ctx.response c) +:+ text
      /\ httptest.wroteHeader (Ctx.response c') = true
      /\ httptest.Code (Ctx.response c') =
           (if httptest.wroteHeader (Ctx.response c) then httptest.Code (Ctx.response c) else 200)
      /\ (httptest.wroteHeader (Ctx.response c) = true ->
          httptest.HeaderMap (Ctx.response c') = httptest.HeaderMap (Ctx.response c))
      /\ Ctx.status c' = Ctx.status c
  | inr err => Ctx.Encode data c = (c, Some err)
  end.
Proof.
  intros _. rewrite Encode_response. destruct (json_Encode data) as [text | err]; [| reflexivity].
  simpl. unfold httptest.WriteHeader.
  destruct (httptest.wroteHeader (Ctx.response c)) eqn:Hw; simpl; rewrite ?Hw; by repeat split.
Qed.

(** X7: [JSON] on a response with no status line yet, under a stored
    status from 200 to 999 that allows a body (neither 204 nor 304), sets
    the outbound Content-Type to [application/json] and writes the stored
    status as the status line, then encodes: the document's bytes are
    appended to the body; and when marshalling fails the error comes back
    after the status line has gone out, with the body as it was. *)
Theorem JSON_on_unwritten_response (c : Ctx.ctx) (data : Data) :
  httptest.wroteHeader (Ctx.response c) = false ->
  200 <= Ctx.status c <= 999 ->
  Ctx.status c <> 204 ->
  Ctx.status c <> 304 ->
  let c' := (Ctx.JSON data c).1 in
  Ctx.Get "Content-Type" [] c' = "application/json"
  /\ httptest.wroteHeader (Ctx.response c') = true
  /\ httptest.Code (Ctx.response c') = Ctx.status c
  /\ Ctx.status c' = Ctx.status c
  /\ match json_Encode data with
     | inl text =>
         (Ctx.JSON data c).2 = None
         /\ httptest.Body (Ctx.response c') = httptest.Body (Ctx.response c) +:+ text
     | inr err =>
         (Ctx.JSON data c).2 = Some err
         /\ httptest.Body (Ctx.response c') = httptest.Body (Ctx.response c)
     end.
Proof.
  intros Hfresh _ _ _ c'. subst c'. unfold Ctx.JSON. rewrite Encode_response.
  unfold Ctx.Get, Ctx.ContentType, Ctx.Set_, httptest.WriteHeader. simpl. rewrite Hfresh.
  destruct (json_Encode data) as [text | err]; simpl; rewrite Header_Get_Set; by repeat split.
Qed.

(** X8: [SendStatus(code)] with a code from 200 to 999 other than 304, on
    a response with no status line yet, stores the code, replacing any
    status stored before, and writes it as the status line with
    Content-Type [text/plain; charset=utf-8]; the body gains the reason
    phrase of the code, except at 204 where it gains nothing. *)
Theorem SendStatus_on_unwritten_response (c : Ctx.ctx) (code : Z) :
  httptest.wroteHeader (Ctx.response c) = false ->
  200 <= code <= 999 ->
  code <> 304 ->
  let c' := (Ctx.SendStatus code c).1 in
  (Ctx.SendStatus code c).2 = None
  /\ Ctx.status c' = code
  /\ httptest.Code (Ctx.response c') = code
  /\ Ctx.Get "Content-Type" [] c' = "text/plain; charset=utf-8"
  /\ httptest.Body (Ctx.response c') =
       (if (code =? 204)%Z then httptest.Body (Ctx.response c)
        else httptest.Body (Ctx.response c) +:+ StatusText code).
Proof.
  intros Hfresh _ _ c'. subst c'. unfold Ctx.SendStatus.
  assert (Ctx.status (Ctx.Write (StatusText code) (Ctx.Status code c)).1 = code) as Hstatus.
  { unfold Ctx.Write. simpl. by destruct (code =? http.StatusNoContent)%Z. }
  assert ((Ctx.Write (StatusText code) (Ctx.Status code c)).2 = None) as Herr.
  { unfold Ctx.Write. simpl. by destruct (code =? http.StatusNoContent)%Z. }
  split; [exact Herr |]. split; [exact Hstatus |].
  unfold Ctx.Get. rewrite Write_response. simpl.
  unfold httptest.WriteHeader. simpl. rewrite Hfresh.
  change http.StatusNoContent with 204.
  destruct (code =? 204)%Z; simpl; rewrite Header_Get_Set; by repeat split.
Qed.

End OutputProperties.

Section LocalsProperties.
Context {go : Collaborators} {K V : Type} `{EqDecision K}.

(** X9: [Locals(key, value)] returns the value and attaches it to the
    request: a later [Locals(key)] returns it, in place of whatever the key
    held before (a [nil] value included); the other keys read as before; the
    values after the first are ignored; and the context proper (response,
    status, validator, request fields) is not touched. *)
Theorem Locals_set_then_get (c : RequestScope.scoped) (k : K) (v : option V) :
  exists c',
    RequestScope.Locals (Some k) [v] c = Ok (c', v)
    /\ (forall vs, RequestScope.Locals (Some k) (v :: vs) c = Ok (c', v))
    /\ RequestScope.Locals (Some k) [] c' = Ok (c', v)
    /\ (forall k', k' <> k ->
          exists v', RequestScope.Locals (Some k') [] c = Ok (c, v')
                     /\ RequestScope.Locals (Some k') [] c' = Ok (c', v'))
    /\ RequestScope.base c' = RequestScope.base c.
Proof.
  eexists. split; [reflexivity |]. split; [reflexivity |].
  split; [| split; [| reflexivity]].
  - unfold RequestScope.Locals.
    cbn [RequestScope.requestContext RequestScope.Value]. by rewrite decide_True.
  - intros k' Hk. eexists. split; [reflexivity |].
    unfold RequestScope.Locals.
    cbn [RequestScope.requestContext RequestScope.Value].
    rewrite decide_False; [reflexivity | congruence].
Qed.

(** X10: the edges of [Locals].  Attaching a value under a [nil] key
    panics.  Reading never panics and never changes the context; it returns
    [nil] for a [nil] key, and for every key while nothing has been
    attached. *)
Theorem Locals_nil_key_and_reads (c : RequestScope.scoped) (key : option K) :
  (forall (v : option V) vs, exists msg, RequestScope.Locals None (v :: vs) c = Panic msg)
  /\ (exists v : option V, RequestScope.Locals key [] c = Ok (c, v))
  /\ RequestScope.Locals None [] c = Ok (c, @None V)
  /\ (RequestScope.requestContext c = [] ->
      RequestScope.Locals key [] c = Ok (c, @None V)).
Proof.
  split; [| split; [| split]].
  - intros v vs. by eexists.
  - by eexists.
  - unfold RequestScope.Locals. f_equal. f_equal.
    induction (RequestScope.requestContext c) as [| [k v] parent IH];
      cbn [RequestScope.Value]; [reflexivity |].
    rewrite decide_False; [exact IH | discriminate].
  - intros Hempty. unfold RequestScope.Locals. by rewrite Hempty.
Qed.

End LocalsProperties.

(** * More of the router: allocation, routes, mounts *)

Section RouterFurther.
Context {go : Collaborators}.

(** X11: [New] never panics.  It puts a router with an empty list of
    middleware at a location no router had and gives it an empty mux at a
    location no mux had; the router's validator is the first argument,
    [nil] without arguments; every router and mux that existed is left as
    it was. *)
Theorem New_allocates_fresh (validators : list (option Ctx.Validater)) (s : Wayes.Store) :
  exists rt m s',
    Wayes.New validators s = Ok (rt, s')
    /\ Wayes.routers s !! rt = None
    /\ Wayes.muxes s !! m = None
    /\ Wayes.routers s' !! rt =
         Some {| Wayes.validator := match validators with v :: _ => v | [] => None end;
                 Wayes.mux := m;
                 Wayes.middlewares := [] |}
    /\ Wayes.muxes s' !! m = Some []
    /\ (forall l, l <> rt -> Wayes.routers s' !! l = Wayes.routers s !! l)
    /\ (forall l, l <> m -> Wayes.muxes s' !! l = Wayes.muxes s !! l).
Proof.
  eexists _, (fresh (dom (Wayes.muxes s))), _.
  split; [reflexivity |]. simpl.
  split; [apply not_elem_of_dom, is_fresh |].
  split; [apply not_elem_of_dom, is_fresh |].
  split; [rewrite lookup_insert_eq; by destruct validators |].
  split; [apply lookup_insert_eq |].
  split; intros l Hl; by rewrite lookup_insert_ne.
Qed.

(** X12: [Use] appends.  On an existing router it never panics, puts the
    handlers after the router's list in call order, and touches no other
    router and no mux; two calls in a row leave what one call with both
    lists of handlers leaves, in every store; a call without handlers
    returns with the store as it was, even on a missing router, where every
    call with a handler panics. *)
Theorem Use_appends_and_composes (rt : Wayes.loc) (hs1 hs2 : list Wayes.Handler)
    (s : Wayes.Store) :
  Wayes.bind (Wayes.Use rt hs1) (fun _ => Wayes.Use rt hs2) s = Wayes.Use rt (hs1 ++ hs2) s
  /\ Wayes.Use rt [] s = Ok (tt, s)
  /\ (Wayes.routers s !! rt = None ->
      exists msg, forall h hs, Wayes.Use rt (h :: hs) s = Panic msg)
  /\ (forall w,
        Wayes.routers s !! rt = Some w ->
        exists s',
          Wayes.Use rt hs1 s = Ok (tt, s')
          /\ Wayes.routers s' !! rt =
               Some {| Wayes.validator := Wayes.validator w;
                       Wayes.mux := Wayes.mux w;
                       Wayes.middlewares := Wayes.middlewares w ++ hs1 |}
          /\ (forall l, l <> rt -> Wayes.routers s' !! l = Wayes.routers s !! l)
          /\ Wayes.muxes s' = Wayes.muxes s).
Proof.
  split; [| split; [| split]].
  - revert s. induction hs1 as [| h hs1 IH]; intros s; [reflexivity |].
    simpl. unfold Wayes.bind at 1 2 3.
    destruct (Wayes.appendMiddleware rt h s) as [[[] s1] | msg]; [| reflexivity].
    apply IH.
  - reflexivity.
  - intros Hnone. eexists. intros h hs. simpl.
    unfold Wayes.bind, Wayes.appendMiddleware, Wayes.bind, Wayes.deref. rewrite Hnone.
    reflexivity.
  - intros w Hw. eexists. split; [exact (Use_spec rt hs1 s w Hw) |]. simpl.
    split; [apply lookup_insert_eq |]. split; [| reflexivity].
    intros l Hl. by rewrite lookup_insert_ne.
Qed.



Lemma route_Ok (method : string) (rt : Wayes.loc) (path : string) (h : Wayes.Handler)
    (s s' : Wayes.Store) :
  Wayes.route method rt path h s = Ok (tt, s') ->
  exists w entries,
    Wayes.routers s !! rt = Some w
    /\ Wayes.muxes s !! Wayes.mux w = Some entries
    /\ Wayes.routers s' = Wayes.routers s
    /\ Wayes.muxes s' =
         <[Wayes.mux w := entries ++ [(method +:+ " " +:+ path, Wayes.HandlerFunc rt h)]]>
           (Wayes.muxes s).
Proof.
  unfold Wayes.route, Wayes.bind, Wayes.deref.
  destruct (Wayes.routers s !! rt) as [w|] eqn:Hrt; [| intros [=]].
  intros HH. destruct (Handle_Ok _ _ _ _ _ HH) as (entries & Hm & _ & _ & Hr & Hm').
  by exists w, entries.
Qed.



Lemma Group_Ok_full (rt : Wayes.loc) (path : string) (s s1 : Wayes.Store) (g : Wayes.loc)
    (parent : Wayes.wayes) (entries : Wayes.ServeMux) :
  Wayes.routers s !! rt = Some parent ->
  Wayes.muxes s !! Wayes.mux parent = Some entries ->
  Wayes.Group rt path s = Ok (g, s1) ->
  let gm := fresh (dom (Wayes.muxes s)) in
  g = fresh (dom (Wayes.routers s))
  /\ g <> rt
  /\ gm <> Wayes.mux parent
  /\ Wayes.routers s !! g = None
  /\ Wayes.muxes s !! gm = None
  /\ Wayes.routers s1 =
       <[g := {| Wayes.validator := Wayes.validator parent;
                 Wayes.mux := gm;
                 Wayes.middlewares := Wayes.middlewares parent |}]> (Wayes.routers s)
  /\ Wayes.muxes s1 =
       <[Wayes.mux parent := entries ++ [(path +:+ "/", Wayes.http_StripPrefix path gm)]]>
         (<[gm := []]> (Wayes.muxes s)).
Proof.
  intros Hrt Hm. unfold Wayes.Group, Wayes.bind, Wayes.deref. rewrite Hrt.
  unfold Wayes.New, Wayes.bind, Wayes.NewServeMux. simpl.
  set (gm := fresh (dom (Wayes.muxes s))).
  set (g0 := fresh (dom (Wayes.routers s))).
  assert (Wayes.routers s !! g0 = None) as Hfresh by apply not_elem_of_dom, is_fresh.
  assert (Wayes.muxes s !! gm = None) as Hfreshm by apply not_elem_of_dom, is_fresh.
  assert (g0 <> rt) as Hne by congruence.
  assert (gm <> Wayes.mux parent) as Hnem by congruence.
  erewrite Use_spec by (simpl; apply lookup_insert_eq). simpl.
  unfold Wayes.Mux, Wayes.bind, Wayes.deref, Wayes.ret. simpl.
  rewrite lookup_insert_eq. simpl.
  unfold Wayes.Handle. simpl.
  rewrite lookup_insert_ne, Hm by done.
  destruct (negb _); [intros [=] |].
  destruct (existsb _ entries); [intros [=] |].
  intros [= <- <-]. simpl.
  rewrite insert_insert_eq. simpl. done.
Qed.

(** X15: a second registration under the same pattern panics: the same
    method and path twice on one router, whatever the handlers, and the same
    group path twice on one router. *)
Theorem registering_twice_panics (rt : Wayes.loc) (s : Wayes.Store) :
  (forall method path h h' s',
      Wayes.route method rt path h s = Ok (tt, s') ->
      exists msg, Wayes.route method rt path h' s' = Panic msg)
  /\ (forall path g s1 parent entries,
         Wayes.routers s !! rt = Some parent ->
         Wayes.muxes s !! Wayes.mux parent = Some entries ->
         Wayes.Group rt path s = Ok (g, s1) ->
         exists msg, Wayes.Group rt path s1 = Panic msg).
Proof.
  split.
  - intros method path h h' s' Hroute.
    destruct (route_Ok _ _ _ _ _ _ Hroute) as (w & entries & Hrt & Hm & Hr & Hmux).
    apply result_panics. unfold Wayes.route, Wayes.bind, Wayes.deref. rewrite Hr, Hrt.
    destruct (Handle_registered_pattern (Wayes.mux w) (method +:+ " " +:+ path)
                (Wayes.HandlerFunc rt h') (Wayes.HandlerFunc rt h)
                (entries ++ [(method +:+ " " +:+ path, Wayes.HandlerFunc rt h)]) s')
      as [msg Hmsg].
    + rewrite Hmux. apply lookup_insert_eq.
    + apply elem_of_app. right. apply list_elem_of_here.
    + by rewrite Hmsg.
  - intros path g s1 parent entries Hrt Hm HG.
    destruct (Group_Ok_full _ _ _ _ _ _ _ Hrt Hm HG)
      as (Hg & Hne & Hnem & Hfresh & Hfreshm & Hr1 & Hm1).
    apply result_panics. unfold Wayes.Group, Wayes.bind, Wayes.deref.
    rewrite Hr1, lookup_insert_ne, Hrt by done.
    unfold Wayes.New, Wayes.bind, Wayes.NewServeMux. simpl.
    erewrite Use_spec by (simpl; apply lookup_insert_eq). simpl.
    unfold Wayes.Mux, Wayes.bind, Wayes.deref, Wayes.ret. simpl.
    rewrite lookup_insert_eq. simpl.
    match goal with
    | |- context [Wayes.Handle ?m ?p ?h ?st] =>
        destruct (Handle_registered_pattern m p h
                    (Wayes.http_StripPrefix path (fresh (dom (Wayes.muxes s))))
                    (entries ++ [(path +:+ "/",
                                  Wayes.http_StripPrefix path (fresh (dom (Wayes.muxes s))))])
                    st)
          as [msg Hmsg]
    end.
    + simpl. rewrite lookup_insert_ne.
      * rewrite Hm1. apply lookup_insert_eq.
      * intros Heq.
        assert (Wayes.mux parent ∈ dom (Wayes.muxes s1)) as Hin.
        { apply elem_of_dom. rewrite Hm1, lookup_insert_eq. by eexists. }
        rewrite <- Heq in Hin. by apply is_fresh in Hin.
    + apply elem_of_app. right. apply list_elem_of_here.
    + by rewrite Hmsg.
Qed.






(** X17: what [Group] leaves alone and what it shares.  The parent's
    router and every other router are as they were; the group is a new
    router with the parent's validator and a new, empty mux of its own; the
    parent's mux gains the mount as its last registration and nothing else;
    every other mux is as it was. *)
Theorem Group_frame (rt : Wayes.loc) (path : string) (s s1 : Wayes.Store) (g : Wayes.loc)
    (parent : Wayes.wayes) (entries : Wayes.ServeMux) :
  Wayes.routers s !! rt = Some parent ->
  Wayes.muxes s !! Wayes.mux parent = Some entries ->
  Wayes.Group rt path s = Ok (g, s1) ->
  exists group,
    Wayes.routers s1 !! g = Some group
    /\ Wayes.routers s !! g = None
    /\ Wayes.validator group = Wayes.validator parent
    /\ Wayes.mux group <> Wayes.mux parent
    /\ Wayes.muxes s !! Wayes.mux group = None
    /\ Wayes.muxes s1 !! Wayes.mux group = Some []
    /\ (exists mount, Wayes.muxes s1 !! Wayes.mux parent = Some (entries ++ [(path +:+ "/", mount)]))
    /\ (forall l, l <> g -> Wayes.routers s1 !! l = Wayes.routers s !! l)
    /\ (forall m, m <> Wayes.mux parent -> m <> Wayes.mux group ->
                  Wayes.muxes s1 !! m = Wayes.muxes s !! m).
Proof.
  intros Hrt Hm HG.
  destruct (Group_Ok_full _ _ _ _ _ _ _ Hrt Hm HG)
    as (Hg & Hne & Hnem & Hfresh & Hfreshm & Hr1 & Hm1).
  eexists. split; [rewrite Hr1; apply lookup_insert_eq |]. simpl.
  split; [exact Hfresh |]. split; [reflexivity |]. split; [exact Hnem |].
  split; [exact Hfreshm |].
  split; [rewrite Hm1, lookup_insert_ne, lookup_insert_eq by done; reflexivity |].
  split; [eexists; rewrite Hm1; apply lookup_insert_eq |].
  split.
  - intros l Hl. by rewrite Hr1, lookup_insert_ne.
  - intros m Hmp Hmg. by rewrite Hm1, !lookup_insert_ne.
Qed.


Lemma http_Error_headers (w : ResponseWriter) (msg : string) (code : Z) :
  httptest.HeaderMap (http_Error w msg code) =
    <[CanonicalHeaderKey "X-Content-Type-Options" := ["nosniff"]]>
      (<[CanonicalHeaderKey "Content-Type" := ["text/plain; charset=utf-8"]]>
         (delete (CanonicalHeaderKey "Content-Length") (httptest.HeaderMap w))).
Proof.
  unfold http_Error, httptest.Write, httptest.WriteHeader, httptest.withHeaderMap, Header_Set,
    Header_Del.
  simpl. by destruct (httptest.wroteHeader w).
Qed.

(** X19: an error reply is plain text whatever the chain prepared.  When a
    middleware or the terminal handler returns an error and the chain has
    not written the status line, the reply goes out at 500 with
    [X-Content-Type-Options: nosniff] and, the two header names being
    different headers, the Content-Type [text/plain; charset=utf-8] in place
    of any Content-Type the chain had set; every header the chain set under
    another name than these two and [Content-Length] is kept. *)
Theorem error_reply_headers (rt : Wayes.wayes) (h : Wayes.Handler)
    (w : ResponseWriter) (r : http.Request) (c' : Ctx.ctx) (err : error) :
  let ms := Wayes.middlewares rt in
  let c0 := Ctx.NewCtx (Wayes.validator rt) w r in
  Wayes.run_middlewares ms c0 = (c', Some err)
  \/ (exists cn, Wayes.run_middlewares ms c0 = (cn, None) /\ h cn = (c', Some err)) ->
  httptest.wroteHeader (Ctx.response c') = false ->
  let w' := Wayes.handler rt h w r in
  httptest.Code w' = 500
  /\ Header_Get (httptest.HeaderMap w') "X-Content-Type-Options" = "nosniff"
  /\ (CanonicalHeaderKey "Content-Type" <> CanonicalHeaderKey "X-Content-Type-Options" ->
      Header_Get (httptest.HeaderMap w') "Content-Type" = "text/plain; charset=utf-8")
  /\ (forall key,
        CanonicalHeaderKey key <> CanonicalHeaderKey "Content-Type" ->
        CanonicalHeaderKey key <> CanonicalHeaderKey "X-Content-Type-Options" ->
        CanonicalHeaderKey key <> CanonicalHeaderKey "Content-Length" ->
        Header_Get (httptest.HeaderMap w') key
        = Header_Get (httptest.HeaderMap (Ctx.response c')) key).
Proof.
  intros ms c0 Hfail Hfresh w'.
  assert (w' = http_Error (Ctx.Response c') (Error err) 500) as ->.
  { subst w'. unfold Wayes.handler. fold ms c0.
    destruct Hfail as [Hrun | (cn & Hrun & Hh)]; rewrite Hrun; [reflexivity |].
    by rewrite Hh. }
  split.
  { destruct (http_Error_response (Ctx.Response c') (Error err) 500) as (_ & -> & _).
    unfold Ctx.Response. by rewrite Hfresh. }
  unfold Header_Get. rewrite http_Error_headers. unfold Ctx.Response.
  split; [by rewrite lookup_insert_eq |]. split.
  - intros Hne. by rewrite lookup_insert_ne, lookup_insert_eq.
  - intros key Hk1 Hk2 Hk3. by rewrite !lookup_insert_ne, lookup_delete_ne.
Qed.

Lemma Combine_loop_Ok (rt t : Wayes.loc) (ts : list Wayes.loc) (s s' : Wayes.Store) :
  Wayes.Combine_loop rt (t :: ts) s = Ok (tt, s') ->
  exists w entries,
    Wayes.routers s !! rt = Some w
    /\ Wayes.muxes s !! Wayes.mux w = Some entries
    /\ Wayes.routers s' = Wayes.routers s
    /\ Wayes.muxes s' = <[Wayes.mux w := entries ++ [("/", Wayes.MuxHandler t)]]> (Wayes.muxes s).
Proof.
  simpl. unfold Wayes.bind at 1 2. unfold Wayes.Mux, Wayes.bind at 1, Wayes.deref, Wayes.ret.
  destruct (Wayes.routers s !! rt) as [w|] eqn:Hrt; [| intros [=]].
  destruct (Wayes.Handle (Wayes.mux w) "/" (Wayes.MuxHandler t) s) as [[[] s1]|msg] eqn:H1;
    [| intros [=]].
  destruct (Handle_Ok _ _ _ _ _ H1) as (entries & Hm & _ & _ & Hr1 & Hm1).
  destruct ts as [| t2 ts].
  - simpl. unfold Wayes.ret. intros [= <-]. by exists w, entries.
  - simpl. unfold Wayes.bind, Wayes.Mux, Wayes.bind, Wayes.deref, Wayes.ret.
    rewrite Hr1, Hrt.
    destruct (Handle_registered_pattern (Wayes.mux w) "/" (Wayes.MuxHandler t2)
                (Wayes.MuxHandler t) (entries ++ [("/", Wayes.MuxHandler t)]) s1)
      as [msg Hmsg].
    + rewrite Hm1. apply lookup_insert_eq.
    + apply elem_of_app. right. apply list_elem_of_here.
    + rewrite Hmsg. intros [=].
Qed.

(** X20: [Combine] works once per router.  Without tables it returns the
    receiver's mux and changes nothing; after a [Combine] that mounted a
    table, every further [Combine] with a table on the same receiver
    panics. *)
Theorem Combine_only_once (rt : Wayes.loc) (s : Wayes.Store) :
  (forall w, Wayes.routers s !! rt = Some w -> Wayes.Combine rt [] s = Ok (Wayes.mux w, s))
  /\ (forall t ts m s',
         Wayes.Combine rt (t :: ts) s = Ok (m, s') ->
         forall t' ts', exists msg, Wayes.Combine rt (t' :: ts') s' = Panic msg).
Proof.
  split.
  - intros w Hw. unfold Wayes.Combine, Wayes.Combine_loop, Wayes.bind, Wayes.ret,
      Wayes.Mux, Wayes.bind, Wayes.deref, Wayes.ret.
    by rewrite Hw.
  - intros t ts m s' HC t' ts'.
    unfold Wayes.Combine in HC. unfold Wayes.bind at 1 in HC.
    destruct (Wayes.Combine_loop rt (t :: ts) s) as [[[] s1]|msg] eqn:Hloop; [| done].
    destruct (Combine_loop_Ok _ _ _ _ _ Hloop) as (w & entries & Hrt & Hm & Hr1 & Hm1).
    unfold Wayes.Mux, Wayes.bind, Wayes.deref, Wayes.ret in HC.
    rewrite Hr1, Hrt in HC. injection HC as <- <-.
    apply result_panics. unfold Wayes.Combine. simpl.
    unfold Wayes.bind at 1 2. unfold Wayes.Mux, Wayes.bind at 1, Wayes.deref, Wayes.ret.
    rewrite Hr1, Hrt. unfold Wayes.bind at 1.
    destruct (Handle_registered_pattern (Wayes.mux w) "/" (Wayes.MuxHandler t')
                (Wayes.MuxHandler t) (entries ++ [("/", Wayes.MuxHandler t)]) s1)
      as [msg Hmsg].
    + rewrite Hm1. apply lookup_insert_eq.
    + apply elem_of_app. right. apply list_elem_of_here.
    + by rewrite Hmsg.
Qed.

End RouterFurther.

(** * The further properties at concrete inputs *)

Section FurtherInstances.
Import Fixture.

(** Two distinct headers do not disturb each other. *)
Lemma Get_Set_by_canonical_key_witness :
  Ctx.Get "test" [] (Ctx.Set_ "other" "456" (Ctx.Set_ "test" "123" (context None "GET" "")))
  = "123".
Proof.
  destruct (@Get_Set_by_canonical_key stdlib (Ctx.Set_ "test" "123" (context None "GET" ""))
              "other" "test" "456" [])
    as [_ Hother].
  rewrite Hother; [reflexivity | discriminate].
Defined.

(** [Encode(doc)] after [Status(404)] and a first [Write]: the status line
    stays at 200 and the document follows the text. *)
Lemma Encode_ignores_stored_status_witness :
  httptest.Code
    (Ctx.response (@Ctx.Encode stdlib encoders "{}"
                     (Ctx.Status 404 (Ctx.Write "a" (context None "GET" "")).1)).1) = 200
  /\ httptest.Body
       (Ctx.response (@Ctx.Encode stdlib encoders "{}"
                        (Ctx.Status 404 (Ctx.Write "a" (context None "GET" "")).1)).1)
     = "a" +:+ "{}" +:+ newline.
Proof.
  assert (200 <= 200 <= 999 /\ 200 <> 204 /\ 200 <> 304) as Hcode by lia.
  destruct (@Encode_ignores_stored_status stdlib encoders
              (Ctx.Status 404 (Ctx.Write "a" (context None "GET" "")).1) "{}" (fun _ => Hcode))
    as (_ & Hbody & _ & Hline & _).
  split; [exact Hline | exact Hbody].
Defined.

(** [Status(201).JSON(doc)] on a fresh response: 201 and the document. *)
Lemma JSON_on_unwritten_response_witness :
  httptest.Code (Ctx.response (@Ctx.JSON stdlib encoders "{}"
                                 (Ctx.Status 201 (context None "GET" ""))).1) = 201
  /\ httptest.Body (Ctx.response (@Ctx.JSON stdlib encoders "{}"
                                    (Ctx.Status 201 (context None "GET" ""))).1)
     = "{}" +:+ newline.
Proof.
  assert (200 <= 201 <= 999) as Hrange by lia.
  assert (201 <> 204) as H204 by lia.
  assert (201 <> 304) as H304 by lia.
  destruct (@JSON_on_unwritten_response stdlib encoders
              (Ctx.Status 201 (context None "GET" "")) "{}" eq_refl Hrange H204 H304)
    as (_ & _ & Hcode & _ & _ & Hbody).
  split; [exact Hcode | exact Hbody].
Defined.

(** The no-content test of the package: [SendStatus(204)] gives 204 and an
    empty body. *)
Lemma SendStatus_on_unwritten_response_witness :
  httptest.Code (Ctx.response (@Ctx.SendStatus stdlib encoders 204 (context None "OPTIONS" "")).1)
  = 204
  /\ httptest.Body (Ctx.response (@Ctx.SendStatus stdlib encoders 204
                                    (context None "OPTIONS" "")).1) = "".
Proof.
  assert (200 <= 204 <= 999) as Hrange by lia.
  assert (204 <> 304) as H304 by lia.
  destruct (@SendStatus_on_unwritten_response stdlib encoders (context None "OPTIONS" "") 204
              eq_refl Hrange H304)
    as (_ & _ & Hcode & _ & Hbody).
  split; [exact Hcode | exact Hbody].
Defined.

(** The locals test of the package: [Locals("test", 123)] then
    [Locals("test")] gives 123. *)
Lemma Locals_set_then_get_witness :
  exists c',
    RequestScope.Locals (Some "test") [Some 123] scopedContext = Ok (c', Some 123)
    /\ RequestScope.Locals (Some "test") [] c' = Ok (c', Some 123).
Proof.
  destruct (@Locals_set_then_get stdlib string Z _ scopedContext "test" (Some 123))
    as (c' & Hset & _ & Hget & _).
  exists c'. split; [exact Hset | exact Hget].
Defined.



(** The same route, and the same group, cannot be registered again. *)
Lemma registering_twice_panics_witness :
  (exists msg, Wayes.Get 0%nat "/test-get" (writes "again") storeRoute = Panic msg)
  /\ (exists msg,
        Wayes.Group 0%nat "/users"
          (exec (Wayes.Group 0%nat "/users") (exec (Wayes.New []) Wayes.emptyStore))
        = Panic msg).
Proof.
  destruct (@registering_twice_panics stdlib 0%nat (exec (Wayes.New []) Wayes.emptyStore))
    as [Hroute Hgroup].
  split.
  - exact (Hroute "GET" "/test-get" (writes "Test get response") (writes "again")
             storeRoute eq_refl).
  - exact (Hgroup "/users" 1%nat
             (exec (Wayes.Group 0%nat "/users") (exec (Wayes.New []) Wayes.emptyStore))
             (router []) [] eq_refl eq_refl eq_refl).
Defined.


(** A group of a new router: the parent keeps its record, the group has the
    parent's validator and an empty mux of its own. *)
Lemma Group_frame_witness :
  exists group,
    Wayes.routers (exec (Wayes.Group 0%nat "/users") (exec (Wayes.New [Some rejectAll]) Wayes.emptyStore))
      !! 1%nat = Some group
    /\ Wayes.validator group = Some rejectAll
    /\ Wayes.muxes (exec (Wayes.Group 0%nat "/users") (exec (Wayes.New [Some rejectAll]) Wayes.emptyStore))
         !! Wayes.mux group = Some [].
Proof.
  destruct (@Group_frame stdlib 0%nat "/users"
              (exec (Wayes.New [Some rejectAll]) Wayes.emptyStore)
              (exec (Wayes.Group 0%nat "/users") (exec (Wayes.New [Some rejectAll]) Wayes.emptyStore))
              1%nat
              {| Wayes.validator := Some rejectAll; Wayes.mux := 0%nat; Wayes.middlewares := [] |}
              [] eq_refl eq_refl eq_refl)
    as (group & Hgroup & _ & Hval & _ & _ & Hmux & _).
  exists group. split; [exact Hgroup |]. split; [exact Hval | exact Hmux].
Defined.


(** A handler that prepared a JSON reply and then failed: the reply is
    plain text, at 500. *)
Lemma error_reply_headers_witness :
  httptest.Code (Wayes.handler (router []) (preparesJSONAndFails "boom")
                   httptest.NewRecorder (request "GET" "/test-get" "")) = 500
  /\ @Header_Get stdlib (httptest.HeaderMap
                (Wayes.handler (router []) (preparesJSONAndFails "boom")
                   httptest.NewRecorder (request "GET" "/test-get" "")))
    "Content-Type"
  = "text/plain; charset=utf-8".
Proof.
  destruct (@error_reply_headers stdlib (router []) (preparesJSONAndFails "boom")
              httptest.NewRecorder (request "GET" "/test-get" "")
              (preparesJSONAndFails "boom"
                 (Ctx.NewCtx None httptest.NewRecorder (request "GET" "/test-get" ""))).1
              (errorsNew "boom")
              (or_intror (ex_intro _ _ (conj eq_refl eq_refl))) eq_refl)
    as (Hcode & _ & Hct & _).
  split; [exact Hcode |]. apply Hct. discriminate.
Defined.

(** After [rt.Combine(rt2.Mux())], [rt.Combine(rt3.Mux())] panics. *)
Lemma Combine_only_once_witness :
  exists msg,
    Wayes.Combine 0%nat [2%nat] (exec (Wayes.Combine 0%nat [1%nat]) storeThree) = Panic msg.
Proof.
  destruct (@Combine_only_once stdlib 0%nat storeThree) as [_ Hagain].
  exact (Hagain 1%nat [] 0%nat (exec (Wayes.Combine 0%nat [1%nat]) storeThree) eq_refl
           2%nat []).
Defined.

End FurtherInstances.
